(** * Subscriptions API of a car-care service: model and properties

    Shallow embedding of [main.py] (the FastAPI handlers) and of the
    constraints declared in [schemas.py].  The handlers talk to a MongoDB
    database through the module-level handle [db] and through the two
    gateway helpers [create_document] and [get_documents]; they read the
    wall clock with [datetime.now] and turn request strings into store
    keys with [bson.ObjectId].  All of these effects are threaded through
    an explicit world state and a small state-and-exception monad. *)

From Stdlib Require Import ZArith NArith Ascii String List Lia.
From Stdlib Require QArith_base.
From stdpp Require Import base decidable option list gmap strings fin_maps.

Local Open Scope Z_scope.
Local Open Scope string_scope.
Local Open Scope list_scope.

(** ** Values and documents *)

(** A BSON ObjectId: the bytes it holds (twelve for every id the driver
    generates). *)
Definition oid := list N.

(** The values the handlers put in, and read from, documents.  Instants
    ([datetime], always UTC here) are counted in microseconds since the
    epoch; [timedelta] arithmetic on them is exact integer arithmetic. *)
Inductive value : Type :=
  | VNone
  | VBool (b : bool)
  | VInt (z : Z)
  | VFloat (q : QArith_base.Q)
  | VStr (s : string)
  | VDate (t : Z)
  | VList (l : list string)
  | VOid (k : oid).

#[global] Instance Q_eq_dec : EqDecision QArith_base.Q.
Proof. solve_decision. Defined.

#[global] Instance value_eq_dec : EqDecision value.
Proof. solve_decision. Defined.

(** A Python [dict] with string keys. *)
Abbreviation dict := (gmap string value).

(** A stored document: the driver gives every document an [_id], and the
    remaining fields are whatever dict was inserted. *)
Record document : Type := Doc { doc_id : oid; doc_body : dict }.

(** The dict a read hands back: the stored fields together with [_id]. *)
Definition as_dict (d : document) : dict :=
  <["_id" := VOid (doc_id d)]> (doc_body d).

(** A database: collections by name.  A collection that was never written
    to reads as empty. *)
Abbreviation Database := (gmap string (list document)).

Definition collection (st : Database) (name : string) : list document :=
  default [] (st !! name).

(** ** The world the handlers run in *)

(** [db] is the module-level handle imported from [database]; it is [None]
    when no database is configured.  [clock] is the sequence of readings
    [datetime.now(timezone.utc)] yields, [fresh_oid] the sequence of ids
    the driver generates; the two counters say how many were consumed. *)
Record World : Type := mkWorld {
  db : option Database;
  clock : nat -> Z;
  clock_reads : nat;
  fresh_oid : nat -> oid;
  oids_made : nat
}.

(** Exceptions a handler can end with. *)
Inductive exn : Type :=
  | HTTPException (status_code : Z) (detail : string)
  | InvalidId (s : string)
  | TypeError (msg : string)
  | KeyError (key : string)
  | DatabaseError (msg : string).

Inductive result (A : Type) : Type :=
  | Ok (a : A)
  | Raise (e : exn).
Arguments Ok {A} a.
Arguments Raise {A} e.

(** Computations: read and change the world, return or raise.  A raise
    keeps whatever the world has become (nothing is rolled back). *)
Definition M (A : Type) : Type := World -> result A * World.

Definition ret {A} (a : A) : M A := fun w => (Ok a, w).
Definition raise {A} (e : exn) : M A := fun w => (Raise e, w).
Definition bind {A B} (m : M A) (k : A -> M B) : M B :=
  fun w => match m w with
           | (Ok a, w') => k a w'
           | (Raise e, w') => (Raise e, w')
           end.

Notation "'let*' x ':=' m 'in' k" := (bind m (fun x => k))
  (at level 10, x name, m at level 100, k at level 200).

(** What FastAPI answers: 200 for a returned value, the code of an
    [HTTPException], and 500 for any exception no handler catches. *)
Definition status_of {A} (r : result A) : Z :=
  match r with
  | Ok _ => 200
  | Raise (HTTPException c _) => c
  | Raise _ => 500
  end.

(** ** The driver: [bson.ObjectId] and pymongo collections *)

(** [Py_ISSPACE]: space, tab, line feed, vertical tab, form feed, carriage
    return. *)
Definition py_isspace (c : ascii) : bool :=
  let n := N_of_ascii c in
  (n =? 32)%N || ((9 <=? n)%N && (n <=? 13)%N).

Definition hex_digit (c : ascii) : option N :=
  let n := N_of_ascii c in
  if (48 <=? n)%N && (n <=? 57)%N then Some (n - 48)%N
  else if (65 <=? n)%N && (n <=? 70)%N then Some (n - 55)%N
  else if (97 <=? n)%N && (n <=? 102)%N then Some (n - 87)%N
  else None.

(** [bytes.fromhex]: pairs of hexadecimal digits, white space allowed
    before a pair; [None] stands for its [ValueError]. *)
Fixpoint fromhex (s : string) : option (list N) :=
  match s with
  | EmptyString => Some []
  | String c rest =>
      if py_isspace c then fromhex rest
      else match hex_digit c, rest with
           | Some top, String c' rest' =>
               match hex_digit c' with
               | Some bot => cons (16 * top + bot)%N <$> fromhex rest'
               | None => None
               end
           | _, _ => None
           end
  end.

(** [bson.ObjectId(s)] on a string: the string must have 24 characters
    and go through [bytes.fromhex]; otherwise the constructor raises
    [InvalidId] ([None] here). *)
Definition parse_oid (s : string) : option oid :=
  if (String.length s =? 24)%nat then fromhex s else None.

Definition ObjectId (s : string) : M oid :=
  match parse_oid s with
  | Some k => ret k
  | None => raise (InvalidId s)
  end.

Definition hex_char (n : N) : ascii :=
  ascii_of_N (if (n <? 10)%N then n + 48 else n + 87)%N.

(** [str(oid)]: the bytes in lower-case hexadecimal. *)
Fixpoint oid_str (k : oid) : string :=
  match k with
  | [] => EmptyString
  | b :: rest => String (hex_char (b / 16)) (String (hex_char (b mod 16)) (oid_str rest))
  end.

(** A query document [{field: value, ...}] selects the documents whose
    named fields hold exactly the given values; [{}] selects them all. *)
Definition matches (query : list (string * value)) (d : document) : bool :=
  forallb (fun '(k, v) => bool_decide (as_dict d !! k = Some v)) query.

(** [db[name]]: subscripting the handle.  With no database configured
    [db] is [None], and subscripting it is a [TypeError]. *)
Definition db_getitem (name : string) : M string :=
  fun w => match db w with
           | Some _ => (Ok name, w)
           | None => (Raise (TypeError "'NoneType' object is not subscriptable"), w)
           end.

(** [coll.find_one(query)]: the first matching document, or [None].  A
    document read from the store always carries [_id], so as a Python
    value it is truthy; [not doc] holds for [None] only. *)
Definition find_one (coll : string) (query : list (string * value)) : M (option document) :=
  fun w => match db w with
           | Some st => (Ok (List.find (matches query) (collection st coll)), w)
           | None => (Raise (DatabaseError "no database"), w)
           end.

(** [coll.find(query)] read to the end. *)
Definition find (coll : string) (query : list (string * value)) : M (list document) :=
  fun w => match db w with
           | Some st => (Ok (List.filter (matches query) (collection st coll)), w)
           | None => (Raise (DatabaseError "no database"), w)
           end.

(** [coll.insert_one(data)]: none of the dicts this API inserts has an
    [_id], so the driver generates one; the document goes to the end of
    the collection and its id is returned. *)
Definition insert_one (coll : string) (data : dict) : M oid :=
  fun w => match db w with
           | Some st =>
               let k := fresh_oid w (oids_made w) in
               (Ok k,
                {| db := Some (<[coll := collection st coll ++ [Doc k data]]> st);
                   clock := clock w; clock_reads := clock_reads w;
                   fresh_oid := fresh_oid w; oids_made := S (oids_made w) |})
           | None => (Raise (DatabaseError "no database"), w)
           end.

(** [datetime.now(timezone.utc)]: the next reading of the clock. *)
Definition datetime_now : M Z :=
  fun w => (Ok (clock w (clock_reads w)),
            {| db := db w; clock := clock w; clock_reads := S (clock_reads w);
               fresh_oid := fresh_oid w; oids_made := oids_made w |}).

(** [timedelta(days=n)] in microseconds. *)
Definition timedelta_days (n : Z) : Z := n * 86400 * 1000000.

(** [d[key]] on a dict. *)
Definition getitem (d : dict) (key : string) : M value :=
  match d !! key with
  | Some v => ret v
  | None => raise (KeyError key)
  end.

(** ** The gateway helpers of [database] *)

(** Modelled from the spec: [create_document] of the [database] module,
    which is not among the sources.  The Document Store Gateway writes
    over named collections and returns documents with a unique identifier
    per record: the dict is inserted as it is given and the generated
    identifier comes back as a string; with no store configured the call
    fails. *)
Definition create_document (collection_name : string) (data : dict) : M string :=
  fun w => match db w with
           | None => (Raise (DatabaseError "Database not available"), w)
           | Some _ => (let* k := insert_one collection_name data in ret (oid_str k)) w
           end.

(** Modelled from the spec: [get_documents] of the [database] module,
    which is not among the sources.  The gateway's filter-based read: the
    finite list of the documents of the collection that match the filter,
    in the order the scan yields them. *)
Definition get_documents (collection_name : string) (filter_dict : list (string * value)) : M (list document) :=
  fun w => match db w with
           | None => (Raise (DatabaseError "Database not available"), w)
           | Some _ => find collection_name filter_dict w
           end.

(** ** Request bodies ([main.py]) *)

(** The request models are pydantic classes: a handler only ever runs on
    a body that has these fields with these types.  None of them declares
    a constraint beyond the type of a field. *)
Record CreateCustomer : Type := {
  name : string;
  email : string;
  phone : string;
  car_make : string;
  car_model : string;
  car_year : option Z;
  plate_number : option string
}.

Record CreateSubscription : Type := {
  customer_id : string;
  plan_id : string
}.

Record CreateBooking : Type := {
  subscription_id : string;
  service_type : string;
  scheduled_date : Z;
  location : string;
  notes : option string
}.

Definition opt_int (o : option Z) : value :=
  match o with Some z => VInt z | None => VNone end.

Definition opt_str (o : option string) : value :=
  match o with Some s => VStr s | None => VNone end.

(** [payload.model_dump()]: one key per declared field. *)
Definition CreateCustomer_model_dump (p : CreateCustomer) : dict :=
  <["name" := VStr (name p)]>
  (<["email" := VStr (email p)]>
  (<["phone" := VStr (phone p)]>
  (<["car_make" := VStr (car_make p)]>
  (<["car_model" := VStr (car_model p)]>
  (<["car_year" := opt_int (car_year p)]>
  (<["plate_number" := opt_str (plate_number p)]> ∅)))))).

Definition CreateBooking_model_dump (p : CreateBooking) : dict :=
  <["subscription_id" := VStr (subscription_id p)]>
  (<["service_type" := VStr (service_type p)]>
  (<["scheduled_date" := VDate (scheduled_date p)]>
  (<["location" := VStr (location p)]>
  (<["notes" := opt_str (notes p)]> ∅)))).

(** [not doc] for what [find_one] returned. *)
Definition py_not {A} (o : option A) : bool :=
  match o with Some _ => false | None => true end.

(** Truth value of a Python string: non-empty. *)
Definition truthy_str (s : string) : bool :=
  negb (String.eqb s "").

(** ** Constraints declared in [schemas.py] *)

(** [Customer.car_year]: [Optional[int]] with [ge=1970, le=2100]. *)
Definition Customer_car_year_ok (y : option Z) : bool :=
  match y with
  | None => true
  | Some y => (1970 <=? y)%Z && (y <=? 2100)%Z
  end.

(** [Booking.status]: a [str] field whose default is ["scheduled"]. *)
Definition Booking_status_default : string := "scheduled".

(** ** The handlers ([main.py]) *)

Definition plan_template (name tier : string) (price_qr : Z) (description : string)
    (features : list string) : dict :=
  <["name" := VStr name]>
  (<["tier" := VStr tier]>
  (<["price_qr" := VFloat (QArith_base.Qmake price_qr 1)]>
  (<["description" := VStr description]>
  (<["features" := VList features]>
  (<["is_active" := VBool true]> ∅))))).

(** The starter catalogue of [seed_plans]. *)
Definition plans : list dict :=
  [ plan_template "Essential Wash" "basic" 79
      "Exterior wash + interior vacuum (1x/week)"
      ["Exterior wash"; "Interior vacuum"; "Tyre shine"];
    plan_template "Care Plus" "standard" 149
      "Wash + interior detail (2x/month)"
      ["Exterior wash"; "Interior detail"; "Glass cleaning"];
    plan_template "Premium Detail" "premium" 299
      "Full detailing + priority booking"
      ["Full detailing"; "Wax coat"; "Priority booking"];
    plan_template "Annual Care" "yearly" 1000
      "Yearly subscription with discounted bundled services"
      ["Up to 12 washes per year"; "Quarterly interior detailing";
       "Priority booking"; "Annual wax and polish"] ].

(** The loop of [seed_plans] over the templates still to visit, with the
    running count [inserted]. *)
Fixpoint seed_loop (ps : list dict) (inserted : Z) : M Z :=
  match ps with
  | [] => ret inserted
  | p :: rest =>
      let* coll := db_getitem "plan" in
      let* tier := getitem p "tier" in
      let* existing := find_one coll [("tier", tier)] in
      match existing with
      | None =>
          let* coll := db_getitem "plan" in
          let* created := datetime_now in
          let* updated := datetime_now in
          let* _ := insert_one coll
                      (<["updated_at" := VDate updated]>
                         (<["created_at" := VDate created]> p)) in
          seed_loop rest (inserted + 1)
      | Some _ => seed_loop rest inserted
      end
  end.

(** [POST /api/seed] *)
Definition seed_plans : M dict :=
  fun w => match db w with
           | None => raise (HTTPException 500 "Database not configured") w
           | Some _ =>
               (let* inserted := seed_loop plans 0 in
                ret ({["inserted" := VInt inserted]} : dict)) w
           end.

(** [d["_id"] = str(d["_id"])] on a document that was read. *)
Definition stringify_id (d : document) : dict :=
  <["_id" := VStr (oid_str (doc_id d))]> (as_dict d).

(** [GET /api/plans] *)
Definition list_plans : M (list dict) :=
  let* docs := get_documents "plan" [("is_active", VBool true)] in
  ret (map stringify_id docs).

(** [POST /api/customers] *)
Definition create_customer (payload : CreateCustomer) : M dict :=
  let* new_id := create_document "customer" (CreateCustomer_model_dump payload) in
  ret ({["id" := VStr new_id]} : dict).

(** [POST /api/subscriptions] *)
Definition create_subscription (payload : CreateSubscription) : M dict :=
  let* cust :=
    (if truthy_str (customer_id payload)
     then let* coll := db_getitem "customer" in
          let* k := ObjectId (customer_id payload) in
          find_one coll [("_id", VOid k)]
     else ret None) in
  let* plan :=
    (if truthy_str (plan_id payload)
     then let* coll := db_getitem "plan" in
          let* k := ObjectId (plan_id payload) in
          find_one coll [("_id", VOid k)]
     else ret None) in
  if py_not cust || py_not plan
  then raise (HTTPException 404 "Customer or Plan not found")
  else
    let* now := datetime_now in
    let renew := now + timedelta_days 30 in
    let sub : dict :=
      <["customer_id" := VStr (customer_id payload)]>
      (<["plan_id" := VStr (plan_id payload)]>
      (<["status" := VStr "active"]>
      (<["starts_at" := VDate now]>
      (<["renews_at" := VDate renew]> ∅)))) in
    let* sub_id := create_document "subscription" sub in
    ret ({["id" := VStr sub_id]} : dict).

(** [GET /api/subscriptions]; the query parameter is optional. *)
Definition list_subscriptions (customer_id : option string) : M (list dict) :=
  let query :=
    match customer_id with
    | Some c => if truthy_str c then [("customer_id", VStr c)] else []
    | None => []
    end in
  let* items := get_documents "subscription" query in
  ret (map stringify_id items).

(** [POST /api/bookings] *)
Definition create_booking (payload : CreateBooking) : M dict :=
  let* coll := db_getitem "subscription" in
  let* k := ObjectId (subscription_id payload) in
  let* sub := find_one coll [("_id", VOid k)] in
  if py_not sub
  then raise (HTTPException 404 "Subscription not found")
  else
    let booking := CreateBooking_model_dump payload in
    let* booking_id := create_document "booking" booking in
    ret ({["id" := VStr booking_id]} : dict).

(** ** The liveness handlers and the routes ([main.py]) *)

(** [GET /] *)
Definition root : M dict :=
  ret (<["name" := VStr "Jamie Andrew Car Services"]>
      (<["location" := VStr "Doha, Qatar"]>
      (<["status" := VStr "ok"]> ∅))).

(** What [db.list_collection_names()] comes to: the names, or an
    exception [e] of which [message] is [str(e)].  Strings are read
    character by character; a message is taken to be plain ASCII. *)
Inductive listing : Type :=
  | Listed (names : list string)
  | Failed (message : string).

(** [GET /test].  [db_name] is the [name] attribute of the handle if it
    has one ([getattr(db, "name", "unknown")]), [list_collection_names]
    the driver call on the current store.  The assignments made before
    the driver call raises stay in [info]. *)
Definition test_database (db_name : option string)
    (list_collection_names : Database → listing) : M dict :=
  fun w =>
    let info : dict :=
      <["backend" := VStr "✅ Running"]>
      (<["database" := VStr "❌ Not Available"]>
      (<["database_url" := VStr "❌ Not Set"]>
      (<["database_name" := VStr "❌ Not Set"]>
      (<["collections" := VList []]> ∅)))) in
    match db w with
    | Some st =>
        let info := <["database" := VStr "✅ Connected"]> info in
        let info := <["database_url" := VStr "✅ Set"]> info in
        let info := <["database_name" := VStr (default "unknown" db_name)]> info in
        match list_collection_names st with
        | Listed names =>
            (Ok (<["collections" := VList (take 10 names)]> info), w)
        | Failed message =>
            (Ok (<["database" := VStr ("⚠️ Error: " +:+ substring 0 80 message)]> info), w)
        end
    | None => (Ok (<["database" := VStr "❌ Not Connected"]> info), w)
    end.

(** The requests the application routes, one per decorated function. *)
Inductive request : Type :=
  | GET_root
  | GET_test
  | POST_seed
  | GET_plans
  | POST_customers (payload : CreateCustomer)
  | POST_subscriptions (payload : CreateSubscription)
  | GET_subscriptions (customer_id : option string)
  | POST_bookings (payload : CreateBooking).

(** A response body: one JSON object or a list of them. *)
Inductive body : Type :=
  | JObject (d : dict)
  | JList (l : list dict).

Definition fmapM {A B} (f : A → B) (m : M A) : M B :=
  let* a := m in ret (f a).

(** The route table. *)
Definition handle (db_name : option string)
    (list_collection_names : Database → listing) (r : request) : M body :=
  match r with
  | GET_root => fmapM JObject root
  | GET_test => fmapM JObject (test_database db_name list_collection_names)
  | POST_seed => fmapM JObject seed_plans
  | GET_plans => fmapM JList list_plans
  | POST_customers payload => fmapM JObject (create_customer payload)
  | POST_subscriptions payload => fmapM JObject (create_subscription payload)
  | GET_subscriptions customer_id => fmapM JList (list_subscriptions customer_id)
  | POST_bookings payload => fmapM JObject (create_booking payload)
  end.

(** The application serving requests one after the other: a request
    that ends with an exception is answered and the next one is served
    in the world it left. *)
Fixpoint serve (db_name : option string)
    (list_collection_names : Database → listing) (rs : list request)
    (w : World) : World :=
  match rs with
  | [] => w
  | r :: rest =>
      serve db_name list_collection_names rest
        (snd (handle db_name list_collection_names r w))
  end.

(** ** Vocabulary of the statements *)

(** An identifier resolves in a collection when a document there has it
    as its [_id]. *)
Definition resolves (st : Database) (coll : string) (k : oid) : Prop :=
  ∃ d, d ∈ collection st coll ∧ doc_id d = k.

(** What the store looks like after one insert. *)
Definition appended (st : Database) (coll : string) (d : document) : Database :=
  <[coll := collection st coll ++ [d]]> st.

(** The world after a handler has read the clock [reads] more times and
    inserted one document. *)
Definition after_insert (w : World) (reads : nat) (st' : Database) : World :=
  {| db := Some st'; clock := clock w; clock_reads := (reads + clock_reads w)%nat;
     fresh_oid := fresh_oid w; oids_made := S (oids_made w) |}.

(** The record [create_subscription] builds at the instant [now]. *)
Definition subscription_record (payload : CreateSubscription) (now : Z) : dict :=
  <["customer_id" := VStr (customer_id payload)]>
  (<["plan_id" := VStr (plan_id payload)]>
  (<["status" := VStr "active"]>
  (<["starts_at" := VDate now]>
  (<["renews_at" := VDate (now + timedelta_days 30)]> ∅)))).

(** The tier of a plan dict ([None] when it has none). *)
Definition tier_of (p : dict) : value := default VNone (p !! "tier").

(** Some plan of the store has this tier. *)
Definition tier_taken (st : Database) (t : value) : bool :=
  match List.find (matches [("tier", t)]) (collection st "plan") with
  | Some _ => true
  | None => false
  end.

(** The templates no stored plan shares its tier with. *)
Definition missing (st : Database) (ps : list dict) : list dict :=
  List.filter (λ p, negb (tier_taken st (tier_of p))) ps.

(** [d] is the template [p] as [seed_plans] stores it: the template's
    fields and the two time stamps. *)
Definition seeded (d : document) (p : dict) : Prop :=
  ∃ created updated : Z,
    doc_body d = <["updated_at" := VDate updated]> (<["created_at" := VDate created]> p).

(** The world after the loop has stored the template [p]. *)
Definition after_seed (w : World) (st : Database) (p : dict) : World :=
  {| db := Some (appended st "plan"
       (Doc (fresh_oid w (oids_made w))
          (<["updated_at" := VDate (clock w (S (clock_reads w)))]>
             (<["created_at" := VDate (clock w (clock_reads w))]> p))));
     clock := clock w; clock_reads := S (S (clock_reads w));
     fresh_oid := fresh_oid w; oids_made := S (oids_made w) |}.

(** What each of the two reference look-ups of [create_subscription]
    comes to on the store [st]. *)
Definition lookup_ref (st : Database) (coll s : string) : result (option document) :=
  if truthy_str s
  then match parse_oid s with
       | Some k => Ok (List.find (matches [("_id", VOid k)]) (collection st coll))
       | None => Raise (InvalidId s)
       end
  else Ok None.

(** A string the look-up can take without an exception: the empty one
    (guarded) or one the driver parses. *)
Definition accepted (s : string) : Prop := s = "" ∨ is_Some (parse_oid s).

(** An accepted string that leads to no document of the collection. *)
Definition unresolved (st : Database) (coll s : string) : Prop :=
  s = "" ∨ ∃ k, parse_oid s = Some k ∧ ¬ resolves st coll k.

(** An identifier as the driver generates them: twelve bytes. *)
Definition wf_oid (k : oid) : Prop :=
  length k = 12%nat ∧ Forall (λ b, (b < 256)%N) k.

(** The store [st'] holds everything [st] holds, in the same order, and
    possibly more at the end of each collection. *)
Definition grown (st st' : Database) : Prop :=
  ∀ c, collection st c `prefix_of` collection st' c.

(** The tiers of the stored plans. *)
Definition plan_tiers (st : Database) : list value :=
  omap (λ d, doc_body d !! "tier") (collection st "plan").

(** The field [field] of [d] is a string that the driver parses to the
    identifier of a document of [coll]. *)
Definition refers (st : Database) (d : document) (field coll : string) : Prop :=
  ∃ s k, doc_body d !! field = Some (VStr s)
         ∧ parse_oid s = Some k
         ∧ resolves st coll k.

(** A subscription as [create_subscription] makes them: active, with a
    renewal exactly 30 days after the start. *)
Definition fresh_subscription (d : document) : Prop :=
  doc_body d !! "status" = Some (VStr "active")
  ∧ ∃ t, doc_body d !! "starts_at" = Some (VDate t)
         ∧ doc_body d !! "renews_at" = Some (VDate (t + 30 * 86400 * 1000000)).

(** Every subscription refers to a customer and a plan, and every
    booking to a subscription. *)
Definition referential_integrity (st : Database) : Prop :=
  Forall (λ d, refers st d "customer_id" "customer" ∧ refers st d "plan_id" "plan")
    (collection st "subscription")
  ∧ Forall (λ d, refers st d "subscription_id" "subscription")
      (collection st "booking").

(** What serving one request can do to an available store: nothing, or
    one document more at the end of one collection (a subscription only
    as the record [create_subscription] builds, with both references
    resolving; a booking only with its reference resolving), or, for the
    seed, the missing templates at the end of the plans. *)
Inductive effect (st st' : Database) : Prop :=
  | effect_none :
      st' = st → effect st st'
  | effect_customer (d : document) :
      st' = appended st "customer" d → effect st st'
  | effect_subscription (payload : CreateSubscription) (new : oid) (now : Z) :
      refers st (Doc new (subscription_record payload now)) "customer_id" "customer" →
      refers st (Doc new (subscription_record payload now)) "plan_id" "plan" →
      st' = appended st "subscription" (Doc new (subscription_record payload now)) →
      effect st st'
  | effect_booking (d : document) :
      refers st d "subscription_id" "subscription" →
      st' = appended st "booking" d → effect st st'
  | effect_seed (new : list document) :
      collection st' "plan" = collection st "plan" ++ new →
      (∀ c, c ≠ "plan" → collection st' c = collection st c) →
      Forall2 seeded new (missing st plans) → effect st st'.

(** ** A sample world *)

(** Identifiers [00...0n], as the sample driver hands them out. *)
Definition sample_oid (n : nat) : oid := repeat 0%N 11 ++ [N.of_nat n].

Definition sample_canceled : document :=
  Doc (sample_oid 6)
    (<["customer_id" := VStr "000000000000000000000007"]>
       (<["status" := VStr "canceled"]> ∅)).

(** One customer, two plans of which one is no longer offered, and three
    subscriptions: an active one, a paused one and a canceled one. *)
Definition sample_store : Database :=
  <["customer" := [Doc (sample_oid 1)
      (<["name" := VStr "Aisha"]> (<["car_year" := VInt 2019]> ∅))]]>
  (<["plan" := [Doc (sample_oid 2)
      (<["tier" := VStr "basic"]> (<["is_active" := VBool false]> ∅));
                Doc (sample_oid 3)
      (<["tier" := VStr "premium"]> (<["is_active" := VBool true]> ∅))]]>
  (<["subscription" :=
      [Doc (sample_oid 4)
         (<["customer_id" := VStr "000000000000000000000001"]>
            (<["status" := VStr "active"]> ∅));
       Doc (sample_oid 5)
         (<["customer_id" := VStr "000000000000000000000001"]>
            (<["status" := VStr "paused"]> ∅));
       sample_canceled]]> ∅)).

Definition sample_world : World :=
  {| db := Some sample_store;
     clock := fun n => 1700000000000000 + Z.of_nat n;
     clock_reads := 0;
     fresh_oid := fun n => sample_oid (100 + n);
     oids_made := 0 |}.

(** The same clock and driver on a store with nothing in it. *)
Definition empty_world : World :=
  {| db := Some ∅;
     clock := fun n => 1700000000000000 + Z.of_nat n;
     clock_reads := 0;
     fresh_oid := fun n => sample_oid (100 + n);
     oids_made := 0 |}.

Definition sample_booking (sid : string) : CreateBooking :=
  {| subscription_id := sid; service_type := "wash";
     scheduled_date := 1700600000000000; location := "Doha"; notes := None |}.

Definition sample_subscription : CreateSubscription :=
  {| customer_id := "000000000000000000000001";
     plan_id := "000000000000000000000002" |}.

Definition sample_customer (year : option Z) : CreateCustomer :=
  {| name := "Omar"; email := "omar@example.com"; phone := "+974 5550 0000";
     car_make := "Toyota"; car_model := "Camry"; car_year := year;
     plate_number := None |}.

(** A run of requests: seed, list, a customer, a subscription and a
    booking with the identifiers handed out on an empty store, a
    booking with a malformed identifier, a listing and a second seed. *)
Definition sample_requests : list request :=
  [ POST_seed; GET_plans;
    POST_customers (sample_customer (Some 2019));
    POST_subscriptions {| customer_id := "000000000000000000000068";
                          plan_id := "000000000000000000000064" |};
    POST_bookings (sample_booking "000000000000000000000069");
    POST_bookings (sample_booking "abc");
    GET_subscriptions None; GET_test; POST_seed ].

(** * Properties *)

(** ** Reading documents *)

Lemma as_dict_id (d : document) : as_dict d !! "_id" = Some (VOid (doc_id d)).
Proof. unfold as_dict. apply lookup_insert_eq. Qed.

Lemma as_dict_field (d : document) (k : string) :
  k ≠ "_id" → as_dict d !! k = doc_body d !! k.
Proof. intros Hk. unfold as_dict. by rewrite lookup_insert_ne. Qed.

Lemma stringify_id_field (d : document) (k : string) :
  k ≠ "_id" → stringify_id d !! k = doc_body d !! k.
Proof.
  intros Hk. unfold stringify_id.
  rewrite lookup_insert_ne by done. by apply as_dict_field.
Qed.

Lemma matches_id (k : oid) (d : document) :
  matches [("_id", VOid k)] d = bool_decide (doc_id d = k).
Proof.
  unfold matches. simpl. rewrite as_dict_id, andb_true_r.
  apply bool_decide_ext. split; [by intros [= ->] | by intros ->].
Qed.

Lemma matches_field (f : string) (v : value) (d : document) :
  f ≠ "_id" → matches [(f, v)] d = bool_decide (doc_body d !! f = Some v).
Proof.
  intros Hf. unfold matches. simpl.
  by rewrite as_dict_field, andb_true_r.
Qed.

Lemma find_id_resolves (st : Database) (coll : string) (k : oid) :
  resolves st coll k ↔ is_Some (List.find (matches [("_id", VOid k)]) (collection st coll)).
Proof.
  split.
  - intros (d & Hd & Hk).
    destruct (List.find _ _) as [x|] eqn:E; [by eexists|].
    apply list_elem_of_In in Hd.
    pose proof (find_none _ _ E d Hd) as Hm.
    rewrite matches_id in Hm. by rewrite bool_decide_eq_false in Hm.
  - intros [x E]. apply find_some in E as [Hin Hm].
    rewrite matches_id, bool_decide_eq_true in Hm.
    exists x. split; [by apply list_elem_of_In | done].
Qed.

Lemma find_id_unresolved (st : Database) (coll : string) (k : oid) :
  ¬ resolves st coll k ↔ List.find (matches [("_id", VOid k)]) (collection st coll) = None.
Proof.
  rewrite find_id_resolves, <- eq_None_not_Some. done.
Qed.

(** A string the driver accepts as an identifier is not empty. *)
Lemma parse_oid_truthy (s : string) (k : oid) :
  parse_oid s = Some k → truthy_str s = true.
Proof. destruct s; [discriminate | done]. Qed.

Lemma create_document_ok (coll : string) (data : dict) (w : World) (st : Database) :
  db w = Some st →
  create_document coll data w =
    (Ok (oid_str (fresh_oid w (oids_made w))),
     {| db := Some (appended st coll (Doc (fresh_oid w (oids_made w)) data));
        clock := clock w; clock_reads := clock_reads w;
        fresh_oid := fresh_oid w; oids_made := S (oids_made w) |}).
Proof.
  intros Hdb. unfold create_document, bind, insert_one, ret. by rewrite Hdb.
Qed.

(** ** Booking admission *)

(** What [create_booking] does once the reference has been parsed. *)
Lemma create_booking_parsed (payload : CreateBooking) (w : World) (st : Database) (k : oid) :
  db w = Some st →
  parse_oid (subscription_id payload) = Some k →
  create_booking payload w =
    match List.find (matches [("_id", VOid k)]) (collection st "subscription") with
    | None => (Raise (HTTPException 404 "Subscription not found"), w)
    | Some _ =>
        let new := fresh_oid w (oids_made w) in
        (Ok {["id" := VStr (oid_str new)]},
         after_insert w 0
           (appended st "booking" (Doc new (CreateBooking_model_dump payload))))
    end.
Proof.
  intros Hdb Hk.
  unfold create_booking, bind, db_getitem, ObjectId, find_one.
  rewrite Hdb, Hk. unfold ret at 1. cbn beta iota. rewrite Hdb.
  destruct (List.find _ _) as [sub|]; cbn [py_not]; [|done].
  by rewrite (create_document_ok _ _ _ _ Hdb).
Qed.

(** C3: a booking whose [subscription_id] is a well-formed identifier that
    no subscription document has is refused with 404 "Subscription not
    found", and the world, the store included, stays as it was. *)
Theorem create_booking_unknown_subscription
    (payload : CreateBooking) (w : World) (st : Database) (k : oid) :
  db w = Some st →
  parse_oid (subscription_id payload) = Some k →
  ¬ resolves st "subscription" k →
  create_booking payload w = (Raise (HTTPException 404 "Subscription not found"), w)
  ∧ status_of (fst (create_booking payload w)) = 404
  ∧ db (snd (create_booking payload w)) = Some st.
Proof.
  intros Hdb Hk Hnone.
  rewrite (create_booking_parsed _ _ _ _ Hdb Hk).
  apply find_id_unresolved in Hnone. rewrite Hnone. by cbn.
Qed.

Lemma create_booking_unknown_subscription_witness :
  create_booking (sample_booking "0000000000000000000000ff") sample_world
    = (Raise (HTTPException 404 "Subscription not found"), sample_world)
  ∧ status_of (fst (create_booking (sample_booking "0000000000000000000000ff") sample_world)) = 404
  ∧ db (snd (create_booking (sample_booking "0000000000000000000000ff") sample_world))
      = Some sample_store.
Proof.
  apply (create_booking_unknown_subscription
           (sample_booking "0000000000000000000000ff") sample_world sample_store
           (repeat 0%N 11 ++ [255%N])).
  - reflexivity.
  - reflexivity.
  - apply find_id_unresolved. reflexivity.
Defined.

(** C8: admission looks at the existence of the subscription only.  For
    any subscription document of the store, with any body and so any
    [status], a booking that refers to it is accepted: the handler
    returns the new identifier and the booking is appended to the
    [booking] collection. *)
Theorem create_booking_ignores_status
    (payload : CreateBooking) (w : World) (st : Database) (sub : document) :
  db w = Some st →
  sub ∈ collection st "subscription" →
  parse_oid (subscription_id payload) = Some (doc_id sub) →
  let new := fresh_oid w (oids_made w) in
  create_booking payload w =
    (Ok {["id" := VStr (oid_str new)]},
     after_insert w 0
       (appended st "booking" (Doc new (CreateBooking_model_dump payload))))
  ∧ status_of (fst (create_booking payload w)) = 200.
Proof.
  intros Hdb Hsub Hk new.
  rewrite (create_booking_parsed _ _ _ _ Hdb Hk).
  assert (resolves st "subscription" (doc_id sub)) as Hres by (by exists sub).
  apply find_id_resolves in Hres as [x ->]. by cbn.
Qed.

Lemma create_booking_ignores_status_witness :
  doc_body sample_canceled !! "status" = Some (VStr "canceled")
  ∧ create_booking (sample_booking "000000000000000000000006") sample_world =
      (Ok {["id" := VStr "000000000000000000000064"]},
       after_insert sample_world 0
         (appended sample_store "booking"
            (Doc (sample_oid 100)
               (CreateBooking_model_dump (sample_booking "000000000000000000000006")))))
  ∧ status_of (fst (create_booking (sample_booking "000000000000000000000006") sample_world)) = 200.
Proof.
  split; [reflexivity|].
  apply (create_booking_ignores_status
           (sample_booking "000000000000000000000006") sample_world sample_store
           sample_canceled).
  - reflexivity.
  - vm_compute. repeat constructor.
  - reflexivity.
Defined.

(** ** Subscription creation *)

(** What [create_subscription] does once both references have been
    parsed. *)
Lemma create_subscription_parsed
    (payload : CreateSubscription) (w : World) (st : Database) (kc kp : oid) :
  db w = Some st →
  parse_oid (customer_id payload) = Some kc →
  parse_oid (plan_id payload) = Some kp →
  create_subscription payload w =
    match List.find (matches [("_id", VOid kc)]) (collection st "customer"),
          List.find (matches [("_id", VOid kp)]) (collection st "plan") with
    | Some _, Some _ =>
        let now := clock w (clock_reads w) in
        let new := fresh_oid w (oids_made w) in
        (Ok {["id" := VStr (oid_str new)]},
         after_insert w 1
           (appended st "subscription" (Doc new (subscription_record payload now))))
    | _, _ => (Raise (HTTPException 404 "Customer or Plan not found"), w)
    end.
Proof.
  intros Hdb Hc Hp.
  unfold create_subscription, bind at 1 2.
  rewrite (parse_oid_truthy _ _ Hc), (parse_oid_truthy _ _ Hp).
  unfold bind, db_getitem, ObjectId, find_one, ret.
  repeat (rewrite ?Hdb, ?Hc, ?Hp; cbn beta iota).
  destruct (List.find (matches [("_id", VOid kc)]) (collection st "customer")) as [cust|];
    destruct (List.find (matches [("_id", VOid kp)]) (collection st "plan")) as [plan|];
    cbn [py_not orb]; try done.
  unfold datetime_now.
  by erewrite create_document_ok by done.
Qed.

(** Both references resolve: the record is written and its identifier
    returned. *)
Lemma create_subscription_resolving
    (payload : CreateSubscription) (w : World) (st : Database) (cust plan : document) :
  db w = Some st →
  cust ∈ collection st "customer" →
  parse_oid (customer_id payload) = Some (doc_id cust) →
  plan ∈ collection st "plan" →
  parse_oid (plan_id payload) = Some (doc_id plan) →
  create_subscription payload w =
    (Ok {["id" := VStr (oid_str (fresh_oid w (oids_made w)))]},
     after_insert w 1
       (appended st "subscription"
          (Doc (fresh_oid w (oids_made w))
             (subscription_record payload (clock w (clock_reads w)))))).
Proof.
  intros Hdb Hcust Hc Hplan Hp.
  rewrite (create_subscription_parsed _ _ _ _ _ Hdb Hc Hp).
  assert (resolves st "customer" (doc_id cust)) as Hrc by (by exists cust).
  assert (resolves st "plan" (doc_id plan)) as Hrp by (by exists plan).
  apply find_id_resolves in Hrc as [x ->].
  apply find_id_resolves in Hrp as [y ->].
  done.
Qed.

(** C1, the record and the response: when both identifiers resolve, [create_subscription]
    reads the clock once, appends to the [subscription] collection a
    record with [status] "active", [starts_at] that reading and
    [renews_at] exactly 30 days later, whatever the plan document holds,
    and answers with the identifier of the new record alone. *)
Theorem create_subscription_active_30_days
    (payload : CreateSubscription) (w : World) (st : Database) (cust plan : document) :
  db w = Some st →
  cust ∈ collection st "customer" →
  parse_oid (customer_id payload) = Some (doc_id cust) →
  plan ∈ collection st "plan" →
  parse_oid (plan_id payload) = Some (doc_id plan) →
  let now := clock w (clock_reads w) in
  let new := fresh_oid w (oids_made w) in
  let sub := subscription_record payload now in
  create_subscription payload w =
    (Ok {["id" := VStr (oid_str new)]},
     after_insert w 1 (appended st "subscription" (Doc new sub)))
  ∧ sub !! "status" = Some (VStr "active")
  ∧ sub !! "starts_at" = Some (VDate now)
  ∧ sub !! "renews_at" = Some (VDate (now + 30 * 86400 * 1000000)).
Proof.
  intros Hdb Hcust Hc Hplan Hp now new sub.
  split; [|done].
  by apply (create_subscription_resolving _ _ _ cust plan).
Qed.

Lemma create_subscription_active_30_days_witness :
  create_subscription sample_subscription sample_world =
    (Ok {["id" := VStr "000000000000000000000064"]},
     after_insert sample_world 1
       (appended sample_store "subscription"
          (Doc (sample_oid 100)
             (subscription_record sample_subscription 1700000000000000))))
  ∧ subscription_record sample_subscription 1700000000000000 !! "status"
      = Some (VStr "active")
  ∧ subscription_record sample_subscription 1700000000000000 !! "starts_at"
      = Some (VDate 1700000000000000)
  ∧ subscription_record sample_subscription 1700000000000000 !! "renews_at"
      = Some (VDate 1702592000000000).
Proof.
  apply (create_subscription_active_30_days sample_subscription sample_world sample_store
           (Doc (sample_oid 1) (<["name" := VStr "Aisha"]> (<["car_year" := VInt 2019]> ∅)))
           (Doc (sample_oid 2) (<["tier" := VStr "basic"]> (<["is_active" := VBool false]> ∅)))).
  - reflexivity.
  - vm_compute. repeat constructor.
  - reflexivity.
  - vm_compute. repeat constructor.
  - reflexivity.
Defined.

(** C1, what is returned: for a resolving pair the handler
    answers with [{"id": ...}] only, so what it returns has no [status],
    [starts_at] or [renews_at]. *)
Lemma create_subscription_returns_id_only :
  fst (create_subscription sample_subscription sample_world)
    = Ok {["id" := VStr "000000000000000000000064"]}
  ∧ ¬ (∃ r : dict, fst (create_subscription sample_subscription sample_world) = Ok r
                   ∧ r !! "status" = Some (VStr "active")).
Proof.
  split; [by vm_compute|].
  intros (r & Hr & Hs). vm_compute in Hr. injection Hr as <-.
  vm_compute in Hs. discriminate.
Qed.

(** ** Identifiers the driver rejects *)

(** [create_booking] has no guard before [ObjectId]: any string the
    driver rejects, the empty one included, ends the handler with the
    driver's exception. *)
Lemma create_booking_malformed (payload : CreateBooking) (w : World) (st : Database) :
  db w = Some st →
  parse_oid (subscription_id payload) = None →
  create_booking payload w = (Raise (InvalidId (subscription_id payload)), w).
Proof.
  intros Hdb Hk. unfold create_booking, bind, db_getitem, ObjectId.
  by rewrite Hdb, Hk.
Qed.

(** [create_subscription] guards the empty string only: a non-empty
    customer id the driver rejects ends the handler the same way. *)
Lemma create_subscription_malformed_customer
    (payload : CreateSubscription) (w : World) (st : Database) :
  db w = Some st →
  customer_id payload ≠ "" →
  parse_oid (customer_id payload) = None →
  create_subscription payload w = (Raise (InvalidId (customer_id payload)), w).
Proof.
  intros Hdb Hne Hk. unfold create_subscription, bind at 1 2.
  assert (truthy_str (customer_id payload) = true) as ->.
  { unfold truthy_str. apply negb_true_iff, String.eqb_neq, Hne. }
  unfold bind, db_getitem, ObjectId. by rewrite Hdb, Hk.
Qed.

(** C2, an identifier the driver rejects: the customer id is not an ObjectId string, so
    the lookup never happens; the handler ends with [InvalidId], which is
    answered with 500 and not with the 404 "Customer or Plan not found".
    Nothing is written. *)
Theorem create_subscription_malformed_is_500 :
  create_subscription
    {| customer_id := "no-such-customer"; plan_id := "000000000000000000000002" |}
    sample_world
  = (Raise (InvalidId "no-such-customer"), sample_world)
  ∧ status_of (fst (create_subscription
       {| customer_id := "no-such-customer"; plan_id := "000000000000000000000002" |}
       sample_world)) = 500.
Proof. split; reflexivity. Qed.

(** C4, malformed identifiers: a string that does not parse as an ObjectId
    makes both handlers end with the driver's [InvalidId], answered with
    500; the one exception is the empty string in [create_subscription],
    which its guard turns into the 404. *)
Theorem malformed_identifier_is_500 :
  parse_oid "" = None
  ∧ create_booking (sample_booking "") sample_world = (Raise (InvalidId ""), sample_world)
  ∧ status_of (fst (create_booking (sample_booking "") sample_world)) = 500
  ∧ parse_oid "abc" = None
  ∧ status_of (fst (create_booking (sample_booking "abc") sample_world)) = 500
  ∧ status_of (fst (create_subscription
       {| customer_id := "abc"; plan_id := "000000000000000000000002" |} sample_world)) = 500
  ∧ status_of (fst (create_subscription
       {| customer_id := "000000000000000000000001"; plan_id := "abc" |} sample_world)) = 500
  ∧ status_of (fst (create_subscription
       {| customer_id := ""; plan_id := "000000000000000000000002" |} sample_world)) = 404.
Proof. repeat split; reflexivity. Qed.

(** ** Fields the handlers write *)

Lemma CreateBooking_model_dump_no_status (payload : CreateBooking) :
  CreateBooking_model_dump payload !! "status" = None.
Proof. done. Qed.

(** C5, the stored booking: the booking that [create_booking] persists is
    the dump of the request body, which has no [status] key; the default
    "scheduled" of the [Booking] schema is never applied. *)
Theorem create_booking_persists_no_status :
  create_booking (sample_booking "000000000000000000000004") sample_world =
    (Ok {["id" := VStr "000000000000000000000064"]},
     after_insert sample_world 0
       (appended sample_store "booking"
          (Doc (sample_oid 100)
             (CreateBooking_model_dump (sample_booking "000000000000000000000004")))))
  ∧ CreateBooking_model_dump (sample_booking "000000000000000000000004") !! "status" = None
  ∧ CreateBooking_model_dump (sample_booking "000000000000000000000004") !! "status"
      ≠ Some (VStr Booking_status_default).
Proof. split; [reflexivity | split; [reflexivity | discriminate]]. Qed.

(** [create_customer] writes the dump of any well-typed body. *)
Lemma create_customer_ok (payload : CreateCustomer) (w : World) (st : Database) :
  db w = Some st →
  create_customer payload w =
    (Ok {["id" := VStr (oid_str (fresh_oid w (oids_made w)))]},
     after_insert w 0
       (appended st "customer"
          (Doc (fresh_oid w (oids_made w)) (CreateCustomer_model_dump payload)))).
Proof.
  intros Hdb. unfold create_customer, bind.
  by rewrite (create_document_ok _ _ _ _ Hdb).
Qed.

(** C7, a year out of range: a customer whose [car_year] is 1800, which
    the [Customer] schema rules out, is accepted and stored. *)
Theorem create_customer_accepts_car_year_1800 :
  Customer_car_year_ok (Some 1800) = false
  ∧ create_customer (sample_customer (Some 1800)) sample_world =
      (Ok {["id" := VStr "000000000000000000000064"]},
       after_insert sample_world 0
         (appended sample_store "customer"
            (Doc (sample_oid 100) (CreateCustomer_model_dump (sample_customer (Some 1800))))))
  ∧ CreateCustomer_model_dump (sample_customer (Some 1800)) !! "car_year" = Some (VInt 1800)
  ∧ status_of (fst (create_customer (sample_customer (Some 1800)) sample_world)) = 200.
Proof. repeat split; reflexivity. Qed.

(** ** Listings *)

Lemma filter_matches_all (l : list document) : List.filter (matches []) l = l.
Proof. induction l as [|d l IH]; [done|]. cbn. by rewrite IH. Qed.

Lemma get_documents_field (coll f : string) (v : value) (w : World) (st : Database) :
  db w = Some st →
  f ≠ "_id" →
  get_documents coll [(f, v)] w =
    (Ok (List.filter (λ d, bool_decide (doc_body d !! f = Some v)) (collection st coll)), w).
Proof.
  intros Hdb Hf. unfold get_documents, find. rewrite Hdb.
  do 2 f_equal. apply List.filter_ext. intros d. by apply matches_field.
Qed.

Lemma get_documents_all (coll : string) (w : World) (st : Database) :
  db w = Some st →
  get_documents coll [] w = (Ok (collection st coll), w).
Proof.
  intros Hdb. unfold get_documents, find. rewrite Hdb.
  by rewrite filter_matches_all.
Qed.

(** C9: [list_plans] returns, with their identifier as a string, exactly
    the plan documents whose [is_active] is [True], in store order: every
    such plan is returned, every returned dict comes from such a plan,
    and none has [is_active] [False].  The world is left as it was. *)
Theorem list_plans_active_only (w : World) (st : Database) :
  db w = Some st →
  let active := λ d, bool_decide (doc_body d !! "is_active" = Some (VBool true)) in
  let returned := map stringify_id (List.filter active (collection st "plan")) in
  list_plans w = (Ok returned, w)
  ∧ (∀ p, p ∈ collection st "plan" →
          doc_body p !! "is_active" = Some (VBool true) → stringify_id p ∈ returned)
  ∧ (∀ d, d ∈ returned →
          (∃ p, p ∈ collection st "plan" ∧ d = stringify_id p)
          ∧ d !! "is_active" = Some (VBool true)
          ∧ d !! "is_active" ≠ Some (VBool false)).
Proof.
  intros Hdb active returned. split; [|split].
  - unfold list_plans, bind.
    by rewrite (get_documents_field _ _ _ _ _ Hdb).
  - intros p Hp Hact. apply list_elem_of_fmap. exists p. split; [done|].
    apply list_elem_of_In, filter_In. split; [by apply list_elem_of_In|].
    by apply bool_decide_eq_true.
  - intros d Hd. apply list_elem_of_fmap in Hd as (p & -> & Hp).
    apply list_elem_of_In, filter_In in Hp as [Hin Hact].
    apply bool_decide_eq_true in Hact.
    assert (stringify_id p !! "is_active" = Some (VBool true)) as Hs
      by (by rewrite stringify_id_field).
    split; [|split].
    + exists p. split; [by apply list_elem_of_In | done].
    + done.
    + rewrite Hs. discriminate.
Qed.

Lemma list_plans_active_only_witness :
  list_plans sample_world =
    (Ok [<["_id" := VStr "000000000000000000000003"]>
           (<["tier" := VStr "premium"]> (<["is_active" := VBool true]> ∅))],
     sample_world).
Proof.
  apply (list_plans_active_only sample_world sample_store). reflexivity.
Defined.

(** C10: a new subscription stores [customer_id] and [plan_id] as the
    strings of the request (never as ObjectIds); [list_subscriptions]
    with a non-empty [customer_id] returns the subscriptions whose stored
    [customer_id] is that very string, and with no [customer_id], or the
    empty one, it returns all subscriptions. *)
Theorem subscriptions_keyed_by_request_strings
    (payload : CreateSubscription) (w : World) (st : Database)
    (cust plan : document) (c : string) :
  db w = Some st →
  cust ∈ collection st "customer" →
  parse_oid (customer_id payload) = Some (doc_id cust) →
  plan ∈ collection st "plan" →
  parse_oid (plan_id payload) = Some (doc_id plan) →
  c ≠ "" →
  (∃ new, db (snd (create_subscription payload w)) = Some (appended st "subscription" new)
          ∧ doc_body new !! "customer_id" = Some (VStr (customer_id payload))
          ∧ doc_body new !! "plan_id" = Some (VStr (plan_id payload)))
  ∧ list_subscriptions (Some c) w =
      (Ok (map stringify_id
             (List.filter (λ d, bool_decide (doc_body d !! "customer_id" = Some (VStr c)))
                (collection st "subscription"))), w)
  ∧ list_subscriptions None w = (Ok (map stringify_id (collection st "subscription")), w)
  ∧ list_subscriptions (Some "") w = (Ok (map stringify_id (collection st "subscription")), w).
Proof.
  intros Hdb Hcust Hc Hplan Hp Hne. split; [|split; [|split]].
  - rewrite (create_subscription_resolving _ _ _ _ _ Hdb Hcust Hc Hplan Hp).
    by eexists.
  - unfold list_subscriptions, bind.
    assert (truthy_str c = true) as ->
      by (unfold truthy_str; apply negb_true_iff, String.eqb_neq, Hne).
    by rewrite (get_documents_field _ _ _ _ _ Hdb).
  - unfold list_subscriptions, bind. by rewrite (get_documents_all _ _ _ Hdb).
  - unfold list_subscriptions, bind. cbn [truthy_str String.eqb negb].
    by rewrite (get_documents_all _ _ _ Hdb).
Qed.

Lemma subscriptions_keyed_by_request_strings_witness :
  (∃ new, db (snd (create_subscription sample_subscription sample_world))
            = Some (appended sample_store "subscription" new)
          ∧ doc_body new !! "customer_id" = Some (VStr "000000000000000000000001")
          ∧ doc_body new !! "plan_id" = Some (VStr "000000000000000000000002"))
  ∧ list_subscriptions (Some "000000000000000000000007") sample_world =
      (Ok (map stringify_id
             (List.filter
                (λ d, bool_decide (doc_body d !! "customer_id"
                                   = Some (VStr "000000000000000000000007")))
                (collection sample_store "subscription"))), sample_world)
  ∧ list_subscriptions None sample_world
      = (Ok (map stringify_id (collection sample_store "subscription")), sample_world)
  ∧ list_subscriptions (Some "") sample_world
      = (Ok (map stringify_id (collection sample_store "subscription")), sample_world).
Proof.
  apply (subscriptions_keyed_by_request_strings sample_subscription sample_world sample_store
           (Doc (sample_oid 1) (<["name" := VStr "Aisha"]> (<["car_year" := VInt 2019]> ∅)))
           (Doc (sample_oid 2) (<["tier" := VStr "basic"]> (<["is_active" := VBool false]> ∅)))
           "000000000000000000000007").
  - reflexivity.
  - vm_compute. repeat constructor.
  - reflexivity.
  - vm_compute. repeat constructor.
  - reflexivity.
  - discriminate.
Defined.

(** ** Seeding the catalogue *)

Lemma find_app {A} (f : A → bool) (l l' : list A) :
  List.find f (l ++ l') =
    match List.find f l with Some x => Some x | None => List.find f l' end.
Proof. induction l as [|a l IH]; [done|]. cbn. by destruct (f a). Qed.

Lemma collection_appended_eq (st : Database) (coll : string) (d : document) :
  collection (appended st coll d) coll = collection st coll ++ [d].
Proof. unfold appended, collection at 1. by rewrite lookup_insert_eq. Qed.

Lemma collection_appended_ne (st : Database) (coll c : string) (d : document) :
  c ≠ coll → collection (appended st coll d) c = collection st c.
Proof. intros Hc. unfold appended, collection. by rewrite lookup_insert_ne. Qed.

(** A stored plan shares the tier [t]. *)
Lemma tier_taken_spec (st : Database) (t : value) :
  tier_taken st t = true ↔
  ∃ d, d ∈ collection st "plan" ∧ doc_body d !! "tier" = Some t.
Proof.
  unfold tier_taken. split.
  - destruct (List.find _ _) as [d|] eqn:E; [intros _ | done].
    apply find_some in E as [Hin Hm].
    rewrite matches_field, bool_decide_eq_true in Hm by done.
    exists d. split; [by apply list_elem_of_In | done].
  - intros (d & Hd & Ht).
    destruct (List.find _ _) as [x|] eqn:E; [done|].
    apply list_elem_of_In in Hd.
    pose proof (find_none _ _ E d Hd) as Hm.
    rewrite matches_field, bool_decide_eq_false in Hm; done.
Qed.

Lemma tier_taken_appended (st : Database) (d : document) (t : value) :
  tier_taken (appended st "plan" d) t =
    tier_taken st t || bool_decide (doc_body d !! "tier" = Some t).
Proof.
  unfold tier_taken. rewrite collection_appended_eq, find_app.
  destruct (List.find _ (collection st "plan")); [done|].
  cbn [List.find]. rewrite matches_field by done.
  by destruct (bool_decide _).
Qed.

(** One turn of the loop. *)
Lemma seed_loop_cons (p : dict) (rest : list dict) (acc : Z) (w : World)
    (st : Database) (t : value) :
  db w = Some st →
  p !! "tier" = Some t →
  seed_loop (p :: rest) acc w =
    if tier_taken st t then seed_loop rest acc w
    else seed_loop rest (acc + 1) (after_seed w st p).
Proof.
  intros Hdb Ht. cbn [seed_loop].
  unfold bind at 1 2 3, db_getitem, getitem, find_one, ret.
  rewrite Hdb, Ht. cbn beta iota. rewrite Hdb. unfold tier_taken.
  destruct (List.find _ _) as [x|]; [done|].
  unfold bind, db_getitem, datetime_now, insert_one. rewrite Hdb.
  cbn beta iota. by rewrite Hdb.
Qed.

(** Storing a template leaves the other tiers as they were. *)
Lemma missing_appended (st : Database) (d : document) (t : value) (ps : list dict) :
  doc_body d !! "tier" = Some t →
  t ∉ map tier_of ps →
  missing (appended st "plan" d) ps = missing st ps.
Proof.
  intros Hd Hfresh. unfold missing. apply List.filter_ext_in.
  intros p' Hp'. f_equal. rewrite tier_taken_appended, Hd.
  rewrite bool_decide_eq_false_2; [by rewrite orb_false_r|].
  intros [= ->]. apply Hfresh, list_elem_of_In, in_map, Hp'.
Qed.

(** The loop, for any list of templates with pairwise different tiers:
    it ends, the count grows by the number of documents added, the added
    documents are the templates whose tier was not taken, in order, and
    only the [plan] collection grows. *)
Lemma seed_loop_spec (ps : list dict) :
  NoDup (map tier_of ps) →
  Forall (λ p, is_Some (p !! "tier")) ps →
  ∀ (w : World) (st : Database) (acc : Z),
    db w = Some st →
    ∃ (w' : World) (st' : Database) (new : list document),
      seed_loop ps acc w = (Ok (acc + Z.of_nat (length new)), w')
      ∧ db w' = Some st'
      ∧ collection st' "plan" = collection st "plan" ++ new
      ∧ (∀ c, c ≠ "plan" → collection st' c = collection st c)
      ∧ Forall2 seeded new (missing st ps)
      ∧ (new = [] → w' = w).
Proof.
  induction ps as [|p ps IH]; intros Hnd Hkeys w st acc Hdb.
  - exists w, st, []. cbn. rewrite Z.add_0_r, app_nil_r.
    repeat split; done.
  - apply NoDup_cons in Hnd as [Hfresh Hnd].
    apply Forall_cons in Hkeys as [[t Ht] Hkeys].
    assert (tier_of p = t) as Htier by (unfold tier_of; by rewrite Ht).
    rewrite Htier in Hfresh.
    rewrite (seed_loop_cons _ _ _ _ _ _ Hdb Ht).
    unfold missing. cbn [List.filter]. rewrite Htier. fold (missing st ps).
    destruct (tier_taken st t) eqn:Htaken; cbn [negb].
    + apply (IH Hnd Hkeys w st acc Hdb).
    + destruct (IH Hnd Hkeys (after_seed w st p) _ (acc + 1) eq_refl)
        as (w' & st' & new & Hrun & Hdb' & Hplan & Hother & Hnew & _).
      eexists w', st', (_ :: new). rewrite Hrun.
      rewrite collection_appended_eq, <- app_assoc in Hplan.
      rewrite (missing_appended _ _ t) in Hnew; [|by simplify_map_eq|done].
      repeat split.
      * do 2 f_equal. cbn [length]. lia.
      * done.
      * exact Hplan.
      * intros c Hc. rewrite (Hother c Hc). by apply collection_appended_ne.
      * constructor; [|done]. by eexists _, _.
      * discriminate.
Qed.

(** When every template's tier is taken the loop changes nothing. *)
Lemma seed_loop_all_taken (ps : list dict) (w : World) (st : Database) (acc : Z) :
  db w = Some st →
  Forall (λ p, is_Some (p !! "tier") ∧ tier_taken st (tier_of p) = true) ps →
  seed_loop ps acc w = (Ok acc, w).
Proof.
  intros Hdb. induction 1 as [|p ps [[t Ht] Htaken] _ IH]; [done|].
  rewrite (seed_loop_cons _ _ _ _ _ _ Hdb Ht).
  unfold tier_of in Htaken. rewrite Ht in Htaken. cbn in Htaken.
  by rewrite Htaken.
Qed.

Lemma plans_tiers_distinct : NoDup (map tier_of plans).
Proof. apply (bool_decide_unpack _). by vm_compute. Qed.

Lemma plans_have_tier : Forall (λ p, is_Some (p !! "tier")) plans.
Proof. repeat constructor; by eexists. Qed.

(** After the loop every template's tier is taken. *)
Lemma seeded_tiers_taken (ps : list dict) (st st' : Database) (new : list document) :
  Forall (λ p, is_Some (p !! "tier")) ps →
  collection st' "plan" = collection st "plan" ++ new →
  Forall2 seeded new (missing st ps) →
  Forall (λ p, is_Some (p !! "tier") ∧ tier_taken st' (tier_of p) = true) ps.
Proof.
  intros Hkeys Hplan Hnew. apply Forall_forall. intros p Hp.
  pose proof (proj1 (Forall_forall _ _) Hkeys p Hp) as [t Ht].
  split; [by eexists|].
  assert (tier_of p = t) as -> by (unfold tier_of; by rewrite Ht).
  apply tier_taken_spec. rewrite Hplan.
  destruct (tier_taken st t) eqn:Htaken.
  - apply tier_taken_spec in Htaken as (d & Hd & Hdt).
    exists d. split; [|done]. apply elem_of_app. by left.
  - assert (p ∈ missing st ps) as Hmiss.
    { apply list_elem_of_In, filter_In. split; [by apply list_elem_of_In|].
      unfold tier_of. rewrite Ht. cbn. by rewrite Htaken. }
    apply list_elem_of_lookup in Hmiss as [i Hi].
    destruct (Forall2_lookup_r _ _ _ _ _ Hnew Hi) as (d & Hd & created & updated & Hbody).
    exists d. split.
    + apply elem_of_app. right. by eapply list_elem_of_lookup_2.
    + rewrite Hbody. by simplify_map_eq.
Qed.

Lemma missing_all_taken (st : Database) (ps : list dict) :
  Forall (λ p, tier_taken st (tier_of p) = true) ps → missing st ps = [].
Proof.
  unfold missing. induction 1 as [|p ps Hp _ IH]; [done|].
  cbn. by rewrite Hp.
Qed.

(** C6: [seed_plans] on an available store returns the number of plans it
    added; the plans added are the templates whose tier no stored plan
    had, each with its two time stamps, appended to the [plan]
    collection.  If all four tiers were there already, nothing is added
    and the world is unchanged.  In any case a second call right after
    returns [inserted = 0] and changes nothing, so the number of plans
    stays the same. *)
Theorem seed_plans_idempotent (w : World) (st : Database) :
  db w = Some st →
  ∃ (w' : World) (st' : Database) (new : list document),
    seed_plans w = (Ok {["inserted" := VInt (Z.of_nat (length new))]}, w')
    ∧ db w' = Some st'
    ∧ collection st' "plan" = collection st "plan" ++ new
    ∧ Forall2 seeded new (missing st plans)
    ∧ (Forall (λ p, tier_taken st (tier_of p) = true) plans → new = [] ∧ w' = w)
    ∧ seed_plans w' = (Ok {["inserted" := VInt 0]}, w')
    ∧ length (collection st' "plan") = (length (collection st "plan") + length new)%nat.
Proof.
  intros Hdb.
  destruct (seed_loop_spec plans plans_tiers_distinct plans_have_tier w st 0 Hdb)
    as (w' & st' & new & Hrun & Hdb' & Hplan & _ & Hnew & Hsame).
  exists w', st', new.
  assert (seed_plans w' = (Ok {["inserted" := VInt 0]}, w')) as Hagain.
  { unfold seed_plans, bind. rewrite Hdb'.
    by rewrite (seed_loop_all_taken plans w' st' 0 Hdb'
                  (seeded_tiers_taken _ _ _ _ plans_have_tier Hplan Hnew)). }
  split; [|split; [|split; [|split; [|split; [|split]]]]]; try done.
  - unfold seed_plans, bind. by rewrite Hdb, Hrun.
  - intros Hall. rewrite (missing_all_taken _ _ Hall) in Hnew.
    apply Forall2_nil_inv_r in Hnew. auto.
  - by rewrite Hplan, length_app.
Qed.

Lemma seed_plans_idempotent_witness :
  ∃ (w' : World) (st' : Database) (new : list document),
    seed_plans sample_world = (Ok {["inserted" := VInt (Z.of_nat (length new))]}, w')
    ∧ db w' = Some st'
    ∧ collection st' "plan" = collection sample_store "plan" ++ new
    ∧ Forall2 seeded new (missing sample_store plans)
    ∧ (Forall (λ p, tier_taken sample_store (tier_of p) = true) plans
       → new = [] ∧ w' = sample_world)
    ∧ seed_plans w' = (Ok {["inserted" := VInt 0]}, w')
    ∧ length (collection st' "plan")
        = (length (collection sample_store "plan") + length new)%nat.
Proof.
  apply (seed_plans_idempotent sample_world sample_store). reflexivity.
Defined.

(** On the sample store, which has a "basic" and a "premium" plan, the
    first call adds the two other templates and the second adds none. *)
Example seed_plans_sample :
  fst (seed_plans sample_world) = Ok {["inserted" := VInt 2]}
  ∧ fst (seed_plans (snd (seed_plans sample_world))) = Ok {["inserted" := VInt 0]}
  ∧ map tier_of (map doc_body
      (collection (default ∅ (db (snd (seed_plans sample_world)))) "plan"))
    = [VStr "basic"; VStr "premium"; VStr "standard"; VStr "yearly"].
Proof. repeat split; by vm_compute. Qed.

(** ** Further properties of subscription creation *)

Lemma create_subscription_eval (payload : CreateSubscription) (w : World) (st : Database) :
  db w = Some st →
  create_subscription payload w =
    match lookup_ref st "customer" (customer_id payload) with
    | Raise e => (Raise e, w)
    | Ok cust =>
        match lookup_ref st "plan" (plan_id payload) with
        | Raise e => (Raise e, w)
        | Ok plan =>
            if py_not cust || py_not plan
            then (Raise (HTTPException 404 "Customer or Plan not found"), w)
            else (Ok {["id" := VStr (oid_str (fresh_oid w (oids_made w)))]},
                  after_insert w 1
                    (appended st "subscription"
                       (Doc (fresh_oid w (oids_made w))
                          (subscription_record payload (clock w (clock_reads w))))))
        end
    end.
Proof.
  intros Hdb. unfold create_subscription, lookup_ref, bind at 1 2.
  destruct (truthy_str (customer_id payload));
    destruct (truthy_str (plan_id payload));
    unfold bind, db_getitem, ObjectId, find_one, ret, raise;
    repeat (rewrite ?Hdb; cbn beta iota);
    repeat (match goal with
            | |- context [parse_oid ?s] => destruct (parse_oid s)
            | |- context [List.find ?f ?l] => destruct (List.find f l)
            end; repeat (rewrite ?Hdb; cbn beta iota); cbn [py_not orb]);
    try done;
    unfold datetime_now; by erewrite create_document_ok by done.
Qed.

Lemma lookup_ref_accepted (st : Database) (coll s : string) :
  accepted s → ∃ o, lookup_ref st coll s = Ok o.
Proof.
  unfold lookup_ref. intros [-> | [k Hk]]; [by eexists|].
  rewrite (parse_oid_truthy _ _ Hk), Hk. by eexists.
Qed.

Lemma lookup_ref_unresolved (st : Database) (coll s : string) :
  unresolved st coll s → lookup_ref st coll s = Ok None.
Proof.
  unfold lookup_ref. intros [-> | (k & Hk & Hnone)]; [done|].
  rewrite (parse_oid_truthy _ _ Hk), Hk.
  apply find_id_unresolved in Hnone. by rewrite Hnone.
Qed.

(** X1: when neither identifier makes the driver raise and one of them
    leads to no document, [create_subscription] answers the one combined 404
    and leaves the world as it was. *)
Theorem create_subscription_unresolved_is_404
    (payload : CreateSubscription) (w : World) (st : Database) :
  db w = Some st →
  accepted (customer_id payload) →
  accepted (plan_id payload) →
  unresolved st "customer" (customer_id payload)
    ∨ unresolved st "plan" (plan_id payload) →
  create_subscription payload w
    = (Raise (HTTPException 404 "Customer or Plan not found"), w).
Proof.
  intros Hdb Hc Hp Hun. rewrite (create_subscription_eval _ _ _ Hdb).
  destruct (lookup_ref_accepted st "customer" _ Hc) as [cust Hcust].
  destruct (lookup_ref_accepted st "plan" _ Hp) as [plan Hplan].
  destruct Hun as [Hun | Hun]; apply lookup_ref_unresolved in Hun.
  - by rewrite Hun, Hplan.
  - rewrite Hcust, Hun. by destruct cust.
Qed.

Lemma create_subscription_unresolved_is_404_witness :
  create_subscription
    {| customer_id := "000000000000000000000001"; plan_id := "0000000000000000000000aa" |}
    sample_world
  = (Raise (HTTPException 404 "Customer or Plan not found"), sample_world).
Proof.
  apply (create_subscription_unresolved_is_404 _ sample_world sample_store).
  - reflexivity.
  - right. by eexists.
  - right. by eexists.
  - right. right. eexists. split; [reflexivity|].
    apply find_id_unresolved. reflexivity.
Defined.

(** X2: there is no guard against repetition: the same resolving request
    made twice stores two subscriptions, under the next two identifiers
    of the driver. *)
Theorem create_subscription_twice
    (payload : CreateSubscription) (w : World) (st : Database) (cust plan : document) :
  db w = Some st →
  cust ∈ collection st "customer" →
  parse_oid (customer_id payload) = Some (doc_id cust) →
  plan ∈ collection st "plan" →
  parse_oid (plan_id payload) = Some (doc_id plan) →
  ∃ (w1 w2 : World) (st2 : Database) (d1 d2 : document),
    snd (create_subscription payload w) = w1
    ∧ snd (create_subscription payload w1) = w2
    ∧ db w2 = Some st2
    ∧ collection st2 "subscription" = collection st "subscription" ++ [d1; d2]
    ∧ doc_body d1 !! "customer_id" = doc_body d2 !! "customer_id"
    ∧ doc_body d1 !! "plan_id" = doc_body d2 !! "plan_id"
    ∧ doc_id d1 = fresh_oid w (oids_made w)
    ∧ doc_id d2 = fresh_oid w (S (oids_made w)).
Proof.
  intros Hdb Hcust Hc Hplan Hp.
  pose proof (create_subscription_resolving _ _ _ _ _ Hdb Hcust Hc Hplan Hp) as H1.
  set (w1 := snd (create_subscription payload w)).
  assert (db w1 = Some (appended st "subscription"
            (Doc (fresh_oid w (oids_made w))
               (subscription_record payload (clock w (clock_reads w)))))) as Hdb1
    by (unfold w1; by rewrite H1).
  assert (fresh_oid w1 (oids_made w1) = fresh_oid w (S (oids_made w))) as Hid
    by (unfold w1; by rewrite H1).
  pose proof (create_subscription_resolving payload w1 _ cust plan Hdb1) as H2.
  rewrite !collection_appended_ne in H2 by done.
  specialize (H2 Hcust Hc Hplan Hp).
  exists w1, (snd (create_subscription payload w1)). rewrite H2. cbn [snd].
  do 3 eexists. split; [done|]. split; [done|]. split; [done|].
  rewrite !collection_appended_eq, <- app_assoc. cbn [app doc_body doc_id].
  by rewrite Hid.
Qed.

Lemma create_subscription_twice_witness :
  ∃ (w1 w2 : World) (st2 : Database) (d1 d2 : document),
    snd (create_subscription sample_subscription sample_world) = w1
    ∧ snd (create_subscription sample_subscription w1) = w2
    ∧ db w2 = Some st2
    ∧ collection st2 "subscription" = collection sample_store "subscription" ++ [d1; d2]
    ∧ doc_body d1 !! "customer_id" = doc_body d2 !! "customer_id"
    ∧ doc_body d1 !! "plan_id" = doc_body d2 !! "plan_id"
    ∧ doc_id d1 = fresh_oid sample_world (oids_made sample_world)
    ∧ doc_id d2 = fresh_oid sample_world (S (oids_made sample_world)).
Proof.
  apply (create_subscription_twice sample_subscription sample_world sample_store
           (Doc (sample_oid 1) (<["name" := VStr "Aisha"]> (<["car_year" := VInt 2019]> ∅)))
           (Doc (sample_oid 2) (<["tier" := VStr "basic"]> (<["is_active" := VBool false]> ∅)))).
  - reflexivity.
  - vm_compute. repeat constructor.
  - reflexivity.
  - vm_compute. repeat constructor.
  - reflexivity.
Defined.

(** X3: with no database configured [seed_plans] answers 500 "Database
    not configured" and touches nothing. *)
Theorem seed_plans_unconfigured (w : World) :
  db w = None →
  seed_plans w = (Raise (HTTPException 500 "Database not configured"), w)
  ∧ status_of (fst (seed_plans w)) = 500.
Proof. intros Hdb. unfold seed_plans. by rewrite Hdb. Qed.

Lemma seed_plans_unconfigured_witness :
  seed_plans (mkWorld None (λ n, 0) 0 sample_oid 0)
    = (Raise (HTTPException 500 "Database not configured"), mkWorld None (λ n, 0) 0 sample_oid 0)
  ∧ status_of (fst (seed_plans (mkWorld None (λ n, 0) 0 sample_oid 0))) = 500.
Proof. apply seed_plans_unconfigured. reflexivity. Defined.

(** ** A whole session *)

(** X4: on an empty store: seed the catalogue, create a customer, subscribe
    the customer to the "basic" plan with the identifiers the API handed
    out, book a service under the new subscription, then try a booking
    under an identifier nobody was given. *)
Example session :
  let w1 := snd (seed_plans empty_world) in
  let w2 := snd (create_customer (sample_customer (Some 2019)) w1) in
  let request := {| customer_id := "000000000000000000000068";
                    plan_id := "000000000000000000000064" |} in
  let w3 := snd (create_subscription request w2) in
  fst (seed_plans empty_world) = Ok {["inserted" := VInt 4]}
  ∧ fst (create_customer (sample_customer (Some 2019)) w1)
      = Ok {["id" := VStr "000000000000000000000068"]}
  ∧ fst (create_subscription request w2) = Ok {["id" := VStr "000000000000000000000069"]}
  ∧ (doc_body <$> collection (default ∅ (db w3)) "subscription")
      = [subscription_record request 1700000000000008]
  ∧ fst (create_booking (sample_booking "000000000000000000000069") w3)
      = Ok {["id" := VStr "00000000000000000000006a"]}
  ∧ status_of (fst (create_booking (sample_booking "0123456789abcdef01234567") w3)) = 404.
Proof. repeat split; by vm_compute. Qed.

(** ** One request at a time *)

Lemma get_documents_world (coll : string) (q : list (string * value)) (w : World) :
  snd (get_documents coll q w) = w.
Proof. unfold get_documents, find. by destruct (db w). Qed.

Lemma list_plans_world (w : World) : snd (list_plans w) = w.
Proof.
  unfold list_plans, bind.
  pose proof (get_documents_world "plan" [("is_active", VBool true)] w) as H.
  by destruct (get_documents _ _ w) as [[docs|e] w'].
Qed.

Lemma list_subscriptions_world (c : option string) (w : World) :
  snd (list_subscriptions c w) = w.
Proof.
  unfold list_subscriptions, bind.
  match goal with |- context [get_documents ?a ?q w] =>
    pose proof (get_documents_world a q w) as H;
    by destruct (get_documents a q w) as [[docs|e] w'] end.
Qed.

(** [create_booking] on an available store, in full. *)
Lemma create_booking_eval (payload : CreateBooking) (w : World) (st : Database) :
  db w = Some st →
  create_booking payload w =
    match parse_oid (subscription_id payload) with
    | None => (Raise (InvalidId (subscription_id payload)), w)
    | Some k =>
        match List.find (matches [("_id", VOid k)]) (collection st "subscription") with
        | None => (Raise (HTTPException 404 "Subscription not found"), w)
        | Some _ =>
            (Ok {["id" := VStr (oid_str (fresh_oid w (oids_made w)))]},
             after_insert w 0
               (appended st "booking"
                  (Doc (fresh_oid w (oids_made w)) (CreateBooking_model_dump payload))))
        end
    end.
Proof.
  intros Hdb. destruct (parse_oid (subscription_id payload)) as [k|] eqn:Hk.
  - by rewrite (create_booking_parsed _ _ _ _ Hdb Hk).
  - by apply (create_booking_malformed _ _ st).
Qed.

(** Without a database [create_booking] stops at [db["subscription"]]. *)
Lemma create_booking_no_db (payload : CreateBooking) (w : World) :
  db w = None →
  create_booking payload w =
    (Raise (TypeError "'NoneType' object is not subscriptable"), w).
Proof. intros Hdb. unfold create_booking, bind, db_getitem. by rewrite Hdb. Qed.

(** Without a database [create_subscription] stops at the first
    subscript of [db], which it reaches unless both identifiers are
    empty. *)
Lemma create_subscription_no_db (payload : CreateSubscription) (w : World) :
  db w = None →
  create_subscription payload w =
    if truthy_str (customer_id payload) || truthy_str (plan_id payload)
    then (Raise (TypeError "'NoneType' object is not subscriptable"), w)
    else (Raise (HTTPException 404 "Customer or Plan not found"), w).
Proof.
  intros Hdb. unfold create_subscription, bind at 1 2.
  destruct (truthy_str (customer_id payload));
    destruct (truthy_str (plan_id payload));
    unfold bind, db_getitem, ret, raise; by rewrite ?Hdb.
Qed.


(** [seed_plans] on an available store, through the loop. *)
Lemma seed_plans_eval (w : World) (st : Database) :
  db w = Some st →
  ∃ (w' : World) (st' : Database) (new : list document),
    seed_plans w = (Ok {["inserted" := VInt (Z.of_nat (length new))]}, w')
    ∧ db w' = Some st'
    ∧ collection st' "plan" = collection st "plan" ++ new
    ∧ (∀ c, c ≠ "plan" → collection st' c = collection st c)
    ∧ Forall2 seeded new (missing st plans).
Proof.
  intros Hdb.
  destruct (seed_loop_spec plans plans_tiers_distinct plans_have_tier w st 0 Hdb)
    as (w' & st' & new & Hrun & Hdb' & Hplan & Hother & Hnew & _).
  exists w', st', new. repeat split; try done.
  unfold seed_plans, bind. by rewrite Hdb, Hrun.
Qed.

Lemma fmapM_snd {A B} (f : A → B) (m : M A) (w : World) :
  snd (fmapM f m w) = snd (m w).
Proof. unfold fmapM, bind, ret. by destruct (m w) as [[a|e] w']. Qed.


Lemma lookup_ref_found (st : Database) (coll s : string) (x : document) :
  lookup_ref st coll s = Ok (Some x) →
  ∃ k, parse_oid s = Some k ∧ resolves st coll k.
Proof.
  unfold lookup_ref. destruct (truthy_str s); [|done].
  destruct (parse_oid s) as [k|]; [|done]. intros [= Hfind].
  exists k. split; [done|]. apply find_id_resolves. by eexists.
Qed.

(** What one request does to an available store. *)
Lemma handle_effect (db_name : option string) (names : Database → listing)
    (r : request) (w : World) (st : Database) :
  db w = Some st →
  ∃ st', db (snd (handle db_name names r w)) = Some st' ∧ effect st st'.
Proof.
  intros Hdb. destruct r as [| | | |payload|payload|c|payload];
    cbn [handle]; rewrite fmapM_snd.
  - exists st. split; [done|]. by apply effect_none.
  - exists st. split; [|by apply effect_none].
    unfold test_database. rewrite Hdb. by destruct (names st).
  - destruct (seed_plans_eval w st Hdb)
      as (w' & st' & new & -> & Hdb' & Hplan & Hother & Hnew).
    exists st'. split; [done|]. by apply (effect_seed _ _ new).
  - rewrite list_plans_world. exists st. split; [done|]. by apply effect_none.
  - rewrite (create_customer_ok _ _ _ Hdb). eexists. split; [reflexivity|].
    by eapply effect_customer.
  - rewrite (create_subscription_eval _ _ _ Hdb).
    destruct (lookup_ref st "customer" (customer_id payload)) as [[cust|]|e] eqn:Hc;
      destruct (lookup_ref st "plan" (plan_id payload)) as [[plan|]|e'] eqn:Hp;
      cbn [py_not orb snd];
      try (exists st; split; [done|]; by apply effect_none).
    apply lookup_ref_found in Hc as (kc & Hkc & Hrc).
    apply lookup_ref_found in Hp as (kp & Hkp & Hrp).
    eexists. split; [reflexivity|].
    apply (effect_subscription _ _ payload (fresh_oid w (oids_made w))
             (clock w (clock_reads w))); [| |done].
    + by exists (customer_id payload), kc.
    + by exists (plan_id payload), kp.
  - rewrite list_subscriptions_world. exists st. split; [done|]. by apply effect_none.
  - rewrite (create_booking_eval _ _ _ Hdb).
    destruct (parse_oid (subscription_id payload)) as [k|] eqn:Hk;
      [|exists st; split; [done|]; by apply effect_none].
    destruct (List.find _ _) as [x|] eqn:Hfind;
      [|exists st; split; [done|]; by apply effect_none].
    eexists. split; [reflexivity|].
    apply (effect_booking _ _
             (Doc (fresh_oid w (oids_made w)) (CreateBooking_model_dump payload)));
      [|done].
    exists (subscription_id payload), k. split; [done|]. split; [done|].
    apply find_id_resolves. by eexists.
Qed.



(** ** Any sequence of requests *)

(** A property of the store that one request keeps is kept by any
    number of them. *)
Lemma serve_invariant (P : Database → Prop) (db_name : option string)
    (names : Database → listing) :
  (∀ st st', effect st st' → P st → P st') →
  ∀ (rs : list request) (w : World) (st : Database),
    db w = Some st → P st →
    ∃ st', db (serve db_name names rs w) = Some st' ∧ P st'.
Proof.
  intros Hstep rs. induction rs as [|r rs IH]; intros w st Hdb HP.
  - by exists st.
  - cbn [serve].
    destruct (handle_effect db_name names r w st Hdb) as (st1 & Hdb1 & Heff).
    apply (IH _ st1 Hdb1). by apply (Hstep st).
Qed.

Lemma grown_appended (st : Database) (coll : string) (d : document) :
  grown st (appended st coll d).
Proof.
  intros c. destruct (decide (c = coll)) as [->|Hc].
  - rewrite collection_appended_eq. by exists [d].
  - by rewrite collection_appended_ne.
Qed.

Lemma effect_grown (st st' : Database) : effect st st' → grown st st'.
Proof.
  intros [-> | d -> | payload k now _ _ -> | d _ -> | new Hplan Hother _];
    try apply grown_appended; [by intros c|].
  intros c. destruct (decide (c = "plan")) as [->|Hc].
  - rewrite Hplan. by exists new.
  - by rewrite Hother.
Qed.

Lemma grown_trans (st1 st2 st3 : Database) :
  grown st1 st2 → grown st2 st3 → grown st1 st3.
Proof. intros H12 H23 c. trans (collection st2 c); [apply H12 | apply H23]. Qed.

Lemma resolves_grown (st st' : Database) (coll : string) (k : oid) :
  grown st st' → resolves st coll k → resolves st' coll k.
Proof.
  intros Hg (d & Hd & Hk). destruct (Hg coll) as [more Hmore].
  exists d. split; [|done]. rewrite Hmore. apply elem_of_app. by left.
Qed.

Lemma refers_grown (st st' : Database) (d : document) (field coll : string) :
  grown st st' → refers st d field coll → refers st' d field coll.
Proof.
  intros Hg (s & k & Hf & Hp & Hr). exists s, k.
  split; [done|]. split; [done|]. by apply (resolves_grown st).
Qed.

(** The store grows by subscriptions and bookings whose references
    resolve: integrity is kept. *)
Lemma integrity_step (st st' : Database) (subs bks : list document) :
  grown st st' →
  collection st' "subscription" = collection st "subscription" ++ subs →
  Forall (λ d, refers st d "customer_id" "customer" ∧ refers st d "plan_id" "plan") subs →
  collection st' "booking" = collection st "booking" ++ bks →
  Forall (λ d, refers st d "subscription_id" "subscription") bks →
  referential_integrity st → referential_integrity st'.
Proof.
  intros Hg Hs Hsubs Hb Hbks [Hi1 Hi2]. split.
  - rewrite Hs. apply Forall_app. split.
    + eapply Forall_impl; [exact Hi1|]. intros d [H1 H2].
      split; by apply (refers_grown st).
    + eapply Forall_impl; [exact Hsubs|]. intros d [H1 H2].
      split; by apply (refers_grown st).
  - rewrite Hb. apply Forall_app. split.
    + eapply Forall_impl; [exact Hi2|]. intros d H1. by apply (refers_grown st).
    + eapply Forall_impl; [exact Hbks|]. intros d H1. by apply (refers_grown st).
Qed.

Lemma effect_integrity (st st' : Database) :
  effect st st' → referential_integrity st → referential_integrity st'.
Proof.
  intros Heff. pose proof (effect_grown _ _ Heff) as Hg.
  destruct Heff as [-> | d -> | payload k now Hc Hp -> | d Hs -> | new Hplan Hother _].
  - done.
  - apply (integrity_step st _ [] []); rewrite ?app_nil_r; try done;
      by rewrite collection_appended_ne.
  - apply (integrity_step st _ [Doc k (subscription_record payload now)] []);
      rewrite ?app_nil_r; try done.
    + by rewrite collection_appended_eq.
    + by repeat constructor.
    + by rewrite collection_appended_ne.
  - apply (integrity_step st _ [] [d]); rewrite ?app_nil_r; try done.
    + by rewrite collection_appended_ne.
    + by rewrite collection_appended_eq.
    + by repeat constructor.
  - apply (integrity_step st _ [] []); rewrite ?app_nil_r; try done;
      by apply Hother.
Qed.

Lemma plan_tiers_taken (st : Database) (t : value) :
  t ∈ plan_tiers st ↔ tier_taken st t = true.
Proof.
  unfold plan_tiers. rewrite list_elem_of_omap, tier_taken_spec. done.
Qed.

Lemma missing_elem (st : Database) (ps : list dict) (p : dict) :
  p ∈ missing st ps ↔ p ∈ ps ∧ tier_taken st (tier_of p) = false.
Proof.
  unfold missing. rewrite !list_elem_of_In, filter_In, negb_true_iff. done.
Qed.

Lemma missing_tiers_distinct (st : Database) (ps : list dict) :
  NoDup (map tier_of ps) → NoDup (map tier_of (missing st ps)).
Proof.
  induction ps as [|p ps IH]; [done|].
  cbn [map]. rewrite NoDup_cons. intros [Hp Hnd].
  unfold missing. cbn [List.filter]. fold (missing st ps).
  destruct (negb _); [|by apply IH].
  cbn [map]. apply NoDup_cons. split; [|by apply IH].
  intros Hin. apply Hp.
  apply list_elem_of_fmap in Hin as (q & Hq & Hin).
  apply missing_elem in Hin as [Hin _].
  apply list_elem_of_fmap. by exists q.
Qed.

Lemma seeded_tiers (new : list document) (ps : list dict) :
  Forall (λ p, is_Some (p !! "tier")) ps →
  Forall2 seeded new ps →
  omap (λ d, doc_body d !! "tier") new = map tier_of ps.
Proof.
  intros Hkeys Hnew. induction Hnew as [|d p new ps (c & u & Hbody) _ IH]; [done|].
  apply Forall_cons in Hkeys as [[t Ht] Hkeys].
  cbn [omap list_omap map]. rewrite Hbody, !lookup_insert_ne by done.
  unfold tier_of at 1. rewrite Ht. cbn. f_equal. by apply IH.
Qed.

Lemma missing_have_tier (st : Database) :
  Forall (λ p, is_Some (p !! "tier")) (missing st plans).
Proof.
  apply Forall_forall. intros p Hp. apply missing_elem in Hp as [Hp _].
  by apply (proj1 (Forall_forall _ _) plans_have_tier).
Qed.

Lemma effect_tiers (st st' : Database) :
  effect st st' → NoDup (plan_tiers st) → NoDup (plan_tiers st').
Proof.
  intros [-> | d -> | payload k now _ _ -> | d _ -> | new Hplan Hother Hnew] Hnd;
    unfold plan_tiers in *; rewrite ?collection_appended_ne by done; try done.
  rewrite Hplan, omap_app, (seeded_tiers _ _ (missing_have_tier st) Hnew).
  apply NoDup_app. split; [done|]. split.
  - intros t Ht Hmiss. apply plan_tiers_taken in Ht.
    apply list_elem_of_fmap in Hmiss as (p & -> & Hp).
    apply missing_elem in Hp as [_ Hp]. congruence.
  - apply missing_tiers_distinct, plans_tiers_distinct.
Qed.

(** X6: the application only ever appends.  Whatever requests are served
    on an available store, every collection afterwards starts with the
    documents it had, unchanged and in the same order: nothing is
    deleted, rewritten or reordered, and the database stays available. *)
Theorem requests_only_append (db_name : option string) (names : Database → listing)
    (rs : list request) (w : World) (st : Database) :
  db w = Some st →
  ∃ st', db (serve db_name names rs w) = Some st' ∧ grown st st'.
Proof.
  intros Hdb.
  apply (serve_invariant (grown st) db_name names) with (st := st); [|done|by intros c].
  intros st1 st2 Heff Hg. apply (grown_trans _ st1); [done|]. by apply effect_grown.
Qed.

(** X7: referential integrity is an invariant of the application.  If
    every stored subscription refers to an existing customer and an
    existing plan and every booking to an existing subscription, this
    still holds after any sequence of requests. *)
Theorem requests_keep_references (db_name : option string) (names : Database → listing)
    (rs : list request) (w : World) (st : Database) :
  db w = Some st →
  referential_integrity st →
  ∃ st', db (serve db_name names rs w) = Some st' ∧ referential_integrity st'.
Proof.
  intros Hdb Hint.
  apply (serve_invariant referential_integrity db_name names) with (st := st); try done.
  apply effect_integrity.
Qed.

(** X8: no request introduces a second plan of a tier.  If the stored
    plans have pairwise different tiers, they still do after any
    sequence of requests. *)
Theorem requests_keep_tiers_unique (db_name : option string) (names : Database → listing)
    (rs : list request) (w : World) (st : Database) :
  db w = Some st →
  NoDup (plan_tiers st) →
  ∃ st', db (serve db_name names rs w) = Some st' ∧ NoDup (plan_tiers st').
Proof.
  intros Hdb Hnd.
  apply (serve_invariant (λ st, NoDup (plan_tiers st)) db_name names) with (st := st);
    try done.
  apply effect_tiers.
Qed.

Lemma requests_only_append_witness :
  ∃ st', db (serve None (λ _, Listed []) sample_requests sample_world) = Some st'
         ∧ grown sample_store st'.
Proof.
  apply (requests_only_append None (λ _, Listed []) sample_requests sample_world sample_store).
  reflexivity.
Defined.

Lemma requests_keep_references_witness :
  ∃ st', db (serve None (λ _, Listed []) sample_requests empty_world) = Some st'
         ∧ referential_integrity st'.
Proof.
  apply (requests_keep_references None (λ _, Listed []) sample_requests empty_world ∅).
  - reflexivity.
  - split; apply Forall_nil_2.
Defined.

Lemma requests_keep_tiers_unique_witness :
  ∃ st', db (serve None (λ _, Listed []) sample_requests sample_world) = Some st'
         ∧ NoDup (plan_tiers st').
Proof.
  apply (requests_keep_tiers_unique None (λ _, Listed []) sample_requests
           sample_world sample_store).
  - reflexivity.
  - apply (bool_decide_unpack _). vm_compute. reflexivity.
Defined.

(** The run on the empty store ends with four plans, one customer, one
    subscription and one booking. *)
Example sample_requests_run :
  (λ st, (length (collection st "plan"), length (collection st "customer"),
          length (collection st "subscription"), length (collection st "booking")))
    <$> db (serve None (λ _, Listed []) sample_requests empty_world)
  = Some (4, 1, 1, 1)%nat.
Proof. by vm_compute. Qed.

(** ** Identifiers handed out and taken back *)

Lemma hex_char_digit (n : N) :
  (n < 16)%N →
  py_isspace (hex_char n) = false ∧ hex_digit (hex_char n) = Some n.
Proof.
  intros Hn. destruct n as [|p]; [by vm_compute|].
  do 4 (destruct p as [p|p|]; try (by vm_compute)); lia.
Qed.

Lemma fromhex_oid_str (k : oid) :
  Forall (λ b, (b < 256)%N) k → fromhex (oid_str k) = Some k.
Proof.
  induction 1 as [|b k Hb _ IH]; [done|].
  cbn [oid_str fromhex].
  assert (b / 16 < 16)%N as Hhi by (apply N.Div0.div_lt_upper_bound; lia).
  assert (b mod 16 < 16)%N as Hlo by (apply N.mod_lt; lia).
  destruct (hex_char_digit _ Hhi) as [-> ->].
  destruct (hex_char_digit _ Hlo) as [_ ->].
  rewrite IH. cbn. do 2 f_equal.
  rewrite (N.div_mod b 16) at 3 by lia. lia.
Qed.

Lemma length_oid_str (k : oid) : String.length (oid_str k) = (2 * length k)%nat.
Proof. induction k as [|b k IH]; [done|]. cbn [oid_str String.length length]. lia. Qed.

(** [ObjectId(str(k))] is [k] for an identifier of twelve bytes. *)
Lemma parse_oid_str (k : oid) : wf_oid k → parse_oid (oid_str k) = Some k.
Proof.
  intros [Hlen Hbytes]. unfold parse_oid.
  rewrite length_oid_str, Hlen. cbn. by apply fromhex_oid_str.
Qed.

(** Every dict [list_plans] returns is a stored active plan with its
    identifier written as a string. *)
Lemma list_plans_elem (w : World) (st : Database) (listed : list dict) (offer : dict) :
  db w = Some st →
  fst (list_plans w) = Ok listed →
  offer ∈ listed →
  ∃ p, p ∈ collection st "plan"
       ∧ doc_body p !! "is_active" = Some (VBool true)
       ∧ offer = stringify_id p.
Proof.
  intros Hdb Hlist Hin. unfold list_plans, bind in Hlist.
  rewrite (get_documents_field _ _ _ _ _ Hdb) in Hlist by done.
  injection Hlist as <-.
  apply list_elem_of_fmap in Hin as (p & -> & Hp).
  apply list_elem_of_In, filter_In in Hp as [Hp Hact].
  exists p. split; [by apply list_elem_of_In|].
  split; [by apply bool_decide_eq_true in Hact | done].
Qed.

(** X9: the identifiers the API hands out are accepted back.  On an
    available store whose plans carry driver-made identifiers, with a
    driver that keeps making such identifiers: the id returned for a new
    customer, together with the [_id] of any plan that [list_plans]
    shows, creates a subscription, and the id returned for that
    subscription admits a booking. *)
Theorem issued_identifiers_are_accepted
    (w : World) (st : Database) (customer : CreateCustomer)
    (listed : list dict) (offer : dict) (pid : string)
    (service place : string) (date : Z) (note : option string) :
  db w = Some st →
  Forall (λ p, wf_oid (doc_id p)) (collection st "plan") →
  wf_oid (fresh_oid w (oids_made w)) →
  wf_oid (fresh_oid w (S (oids_made w))) →
  fst (list_plans w) = Ok listed →
  offer ∈ listed →
  offer !! "_id" = Some (VStr pid) →
  ∃ (cid sid bid : string) (w1 w2 w3 : World),
    create_customer customer w = (Ok {["id" := VStr cid]}, w1)
    ∧ create_subscription {| customer_id := cid; plan_id := pid |} w1
        = (Ok {["id" := VStr sid]}, w2)
    ∧ create_booking
        {| subscription_id := sid; service_type := service; scheduled_date := date;
           location := place; notes := note |} w2
        = (Ok {["id" := VStr bid]}, w3).
Proof.
  intros Hdb Hwf Hk0 Hk1 Hlist Hin Hid.
  destruct (list_plans_elem _ _ _ _ Hdb Hlist Hin) as (p & Hp & _ & ->).
  unfold stringify_id in Hid. rewrite lookup_insert_eq in Hid. injection Hid as <-.
  pose proof (proj1 (Forall_forall _ _) Hwf p Hp) as Hwfp.
  set (k0 := fresh_oid w (oids_made w)) in *.
  set (k1 := fresh_oid w (S (oids_made w))) in *.
  set (c := Doc k0 (CreateCustomer_model_dump customer)).
  set (st1 := appended st "customer" c).
  set (w1 := after_insert w 0 st1).
  set (request := {| customer_id := oid_str k0; plan_id := oid_str (doc_id p) |}).
  set (s := Doc k1 (subscription_record request (clock w (clock_reads w)))).
  set (st2 := appended st1 "subscription" s).
  set (w2 := after_insert w1 1 st2).
  exists (oid_str k0), (oid_str k1), (oid_str (fresh_oid w (S (S (oids_made w))))), w1, w2.
  eexists. split; [by apply create_customer_ok|]. split.
  - apply (create_subscription_resolving request w1 st1 c p); try done.
    + unfold st1. rewrite collection_appended_eq. apply elem_of_app. right.
      by apply list_elem_of_singleton.
    + by apply parse_oid_str.
    + unfold st1. by rewrite collection_appended_ne.
    + by apply parse_oid_str.
  - erewrite (create_booking_parsed _ w2 st2 k1); [|done|by apply parse_oid_str].
    assert (resolves st2 "subscription" k1) as Hres.
    { exists s. split; [|done]. unfold st2. rewrite collection_appended_eq.
      apply elem_of_app. right. by apply list_elem_of_singleton. }
    apply find_id_resolves in Hres as [x ->]. reflexivity.
Qed.

Lemma issued_identifiers_are_accepted_witness :
  ∃ (cid sid bid : string) (w1 w2 w3 : World),
    create_customer (sample_customer None) sample_world = (Ok {["id" := VStr cid]}, w1)
    ∧ create_subscription
        {| customer_id := cid; plan_id := "000000000000000000000003" |} w1
        = (Ok {["id" := VStr sid]}, w2)
    ∧ create_booking
        {| subscription_id := sid; service_type := "wash"; scheduled_date := 0;
           location := "Doha"; notes := None |} w2
        = (Ok {["id" := VStr bid]}, w3).
Proof.
  apply (issued_identifiers_are_accepted sample_world sample_store (sample_customer None)
           [stringify_id (Doc (sample_oid 3)
              (<["tier" := VStr "premium"]> (<["is_active" := VBool true]> ∅)))]
           (stringify_id (Doc (sample_oid 3)
              (<["tier" := VStr "premium"]> (<["is_active" := VBool true]> ∅))))).
  - reflexivity.
  - unfold wf_oid. apply (bool_decide_unpack _). by vm_compute.
  - unfold wf_oid. apply (bool_decide_unpack _). by vm_compute.
  - unfold wf_oid. apply (bool_decide_unpack _). by vm_compute.
  - reflexivity.
  - apply list_elem_of_singleton. reflexivity.
  - reflexivity.
Defined.

(** ** Writing, then listing *)







(** ** With no database, and the connectivity report *)

(** X12: with no database configured nothing is ever written, and what
    the caller is told depends on how far the handler gets: a booking is
    always answered 500, even with a malformed identifier (the subscript
    of [db] fails first); a subscription request is answered 500 as soon
    as one identifier is non-empty, but 404 "Customer or Plan not found"
    when both are empty, since then [db] is never touched. *)
Theorem unconfigured_database_answers
    (w : World) (sub : CreateSubscription) (booking : CreateBooking) :
  db w = None →
  status_of (fst (create_booking booking w)) = 500
  ∧ snd (create_booking booking w) = w
  ∧ (customer_id sub = "" → plan_id sub = "" →
       create_subscription sub w
         = (Raise (HTTPException 404 "Customer or Plan not found"), w))
  ∧ (customer_id sub ≠ "" ∨ plan_id sub ≠ "" →
       status_of (fst (create_subscription sub w)) = 500)
  ∧ snd (create_subscription sub w) = w.
Proof.
  intros Hdb. rewrite (create_booking_no_db _ _ Hdb), (create_subscription_no_db _ _ Hdb).
  split; [done|]. split; [done|]. split; [|split].
  - by intros -> ->.
  - intros Hne.
    assert (truthy_str (customer_id sub) || truthy_str (plan_id sub) = true) as ->; [|done].
    unfold truthy_str. apply orb_true_iff.
    destruct Hne as [Hne|Hne]; [left|right]; by apply negb_true_iff, String.eqb_neq.
  - by destruct (_ || _).
Qed.

Lemma unconfigured_database_answers_witness :
  status_of (fst (create_booking (sample_booking "abc") (mkWorld None (λ n, 0) 0 sample_oid 0)))
    = 500
  ∧ snd (create_booking (sample_booking "abc") (mkWorld None (λ n, 0) 0 sample_oid 0))
      = mkWorld None (λ n, 0) 0 sample_oid 0
  ∧ ("" = "" → "" = "" →
       create_subscription {| customer_id := ""; plan_id := "" |}
         (mkWorld None (λ n, 0) 0 sample_oid 0)
         = (Raise (HTTPException 404 "Customer or Plan not found"),
            mkWorld None (λ n, 0) 0 sample_oid 0))
  ∧ ("" ≠ "" ∨ "" ≠ "" →
       status_of (fst (create_subscription {| customer_id := ""; plan_id := "" |}
                         (mkWorld None (λ n, 0) 0 sample_oid 0))) = 500)
  ∧ snd (create_subscription {| customer_id := ""; plan_id := "" |}
           (mkWorld None (λ n, 0) 0 sample_oid 0))
      = mkWorld None (λ n, 0) 0 sample_oid 0.
Proof.
  apply (unconfigured_database_answers (mkWorld None (λ n, 0) 0 sample_oid 0)
           {| customer_id := ""; plan_id := "" |} (sample_booking "abc")).
  reflexivity.
Defined.



(** ** Subscriptions never change *)

Lemma effect_subscriptions (st st' : Database) :
  effect st st' →
  Forall fresh_subscription (collection st "subscription") →
  Forall fresh_subscription (collection st' "subscription").
Proof.
  intros [-> | d -> | payload k now _ _ -> | d _ -> | new _ Hother _] Hall;
    rewrite ?collection_appended_ne, ?Hother by done; try done.
  rewrite collection_appended_eq. apply Forall_app. split; [done|].
  apply Forall_singleton. split; [done|]. by exists now.
Qed.

(** X14: there is no life cycle beyond creation.  If every stored
    subscription is active with a renewal exactly 30 days after its
    start, then so is every stored subscription after any sequence of
    requests: none is paused, canceled or renewed, and every one that is
    added is of that form. *)
Theorem requests_keep_subscriptions_fresh (db_name : option string)
    (names : Database → listing) (rs : list request) (w : World) (st : Database) :
  db w = Some st →
  Forall fresh_subscription (collection st "subscription") →
  ∃ st', db (serve db_name names rs w) = Some st'
         ∧ Forall fresh_subscription (collection st' "subscription").
Proof.
  intros Hdb Hall.
  apply (serve_invariant (λ st, Forall fresh_subscription (collection st "subscription"))
           db_name names) with (st := st); try done.
  apply effect_subscriptions.
Qed.

Lemma requests_keep_subscriptions_fresh_witness :
  ∃ st', db (serve None (λ _, Listed []) sample_requests empty_world) = Some st'
         ∧ Forall fresh_subscription (collection st' "subscription").
Proof.
  apply (requests_keep_subscriptions_fresh None (λ _, Listed []) sample_requests
           empty_world ∅).
  - reflexivity.
  - apply Forall_nil_2.
Defined.
